(** * CompanionComponent: the voice-session controller of the companion page

    A shallow embedding of [src/components/CompanionComponent.tsx], the React
    component that drives a voice call through the [vapi] client.

    How the component is read:

    - React state is a record [State], one field per [useState] cell.
    - A handler is a closure created by a render.  What it READS from a
      state cell is the value of the render that created it; what it WRITES
      through a setter is queued and becomes visible at the next render.
      A [World] therefore carries two copies of the state: [snap], the state
      of the last committed render (read by closures, by [disabled] and by
      conditional JSX), and [cur], the state with every queued update
      applied (what the next render will show).  The event [Render] commits
      [cur] into [snap]; it also stands for the re-run of the effects, whose
      dependency lists name every cell their handlers read.
    - [setTimeout] closures are defunctionalised: a pending timer records its
      delay and the values its callback captured.
    - [await] splits an async function in two: the part before it runs in the
      event that calls the function, the part after it runs when the
      environment settles the promise ([StartSettled], [StopSettled]).
    - Calls that leave the component ([vapi.start], [alert], [console.log],
      [addToSessionHistory], ...) are appended to the log [effects]; a
      console entry carries the fixed text of its message.
    - The subscription itself ([vapi.on], [vapi.off] and their two log
      lines) and the two effects that only touch the DOM (scrolling the
      transcript, playing the animation) are left out: the handlers that
      receive an SDK event are those of the last render. *)

From Stdlib Require Import QArith Ascii.
From stdpp Require Import gmap strings list pretty.

Local Open Scope string_scope.
Local Open Scope list_scope.
Local Open Scope Z_scope.

(** ** Data model *)

(** [enum CallStatus] *)
Inductive CallStatus := INACTIVE | CONNECTING | ACTIVE | FINISHED.

#[global] Instance CallStatus_eq_dec : EqDecision CallStatus.
Proof. solve_decision. Defined.

(** [enum VoiceQuality] *)
Inductive VoiceQuality := LOW | MEDIUM | HIGH.

(** The component's props. *)
Module Props.
Record t := {
  companionId : string;
  subject : string;
  topic : string;
  name : string;
  userName : string;
  userImage : string;
  style : string;
  voice : string
}.
End Props.

(** The [message] event payload of the SDK, with the four fields [onMessage]
    reads; they are strings, compared with [===]. *)
Module Message.
Record t := {
  type : string;
  transcriptType : string;
  role : string;
  transcript : string
}.
End Message.

(** The object literal [newMessage] built by [onMessage]. *)
Record SavedMessage := {
  role : string;
  content : string;
  timestamp : string
}.

Record UserPreferences := {
  voiceQuality : VoiceQuality;
  noiseReduction : bool;
  echoCancellation : bool
}.

(** [interface ConversationContext] *)
Record ConversationContext := {
  subject : string;
  topic : string;
  previousMessages : list SavedMessage;
  userPreferences : UserPreferences
}.

(** The eleven [useState] cells.  [audioLevel] is a JS number that is stored
    and never computed with; it is carried as a rational.  A timer handle is
    the positive integer a browser's [setTimeout] returns, so the truthiness
    test [if (voiceActivityTimeout)] is the test for [Some]. *)
Record State := {
  callStatus : CallStatus;
  isSpeaking : bool;
  isListening : bool;
  isMuted : bool;
  messages : list SavedMessage;
  audioLevel : Q;
  connectionQuality : string;
  lastUserInput : string;
  voiceActivityTimeout : option positive;
  retryCount : Z;
  conversationContext : ConversationContext
}.

(** What leaves the component. *)
Inductive Effect :=
| VapiStart (voice style subject topic : string)
| VapiStop
| VapiSetMuted (muted : bool)
| AlertUser (msg : string)
| AddToSessionHistory (companionId : string)
| ConsoleLog (msg : string)
| ConsoleError (msg : string)
| PreventDefault.

#[global] Instance Effect_eq_dec : EqDecision Effect.
Proof. solve_decision. Defined.

(** The two [setTimeout] callbacks of the component, each with the values
    its closure captured when it was created. *)
Inductive Callback :=
| SilenceCb (capturedListening capturedSpeaking : bool)
| RetryCb (capturedRetryCount : Z).

Record Timer := {
  delay : Z;
  callback : Callback
}.

(** How a promise settles. *)
Inductive Settled := Fulfilled | Rejected.

(** Who awaits a pending [handleCall]: an event handler, which drops the
    promise, or the timer callback of [retryConnection], which awaits it
    inside [try]. *)
Inductive Awaiter :=
| FromHandler
| FromRetry (capturedRetryCount : Z).

Record World := {
  cur : State;
  snap : State;
  timers : gmap positive Timer;
  nextTimer : positive;
  vapiMuted : bool;
  startsPending : list Awaiter;
  stopsPending : nat;
  effects : list Effect
}.

(** ** State setters *)

Definition with_callStatus (v : CallStatus) (s : State) : State :=
  {| callStatus := v; isSpeaking := isSpeaking s; isListening := isListening s;
     isMuted := isMuted s; messages := messages s; audioLevel := audioLevel s;
     connectionQuality := connectionQuality s; lastUserInput := lastUserInput s;
     voiceActivityTimeout := voiceActivityTimeout s; retryCount := retryCount s;
     conversationContext := conversationContext s |}.

Definition with_isSpeaking (v : bool) (s : State) : State :=
  {| callStatus := callStatus s; isSpeaking := v; isListening := isListening s;
     isMuted := isMuted s; messages := messages s; audioLevel := audioLevel s;
     connectionQuality := connectionQuality s; lastUserInput := lastUserInput s;
     voiceActivityTimeout := voiceActivityTimeout s; retryCount := retryCount s;
     conversationContext := conversationContext s |}.

Definition with_isListening (v : bool) (s : State) : State :=
  {| callStatus := callStatus s; isSpeaking := isSpeaking s; isListening := v;
     isMuted := isMuted s; messages := messages s; audioLevel := audioLevel s;
     connectionQuality := connectionQuality s; lastUserInput := lastUserInput s;
     voiceActivityTimeout := voiceActivityTimeout s; retryCount := retryCount s;
     conversationContext := conversationContext s |}.

Definition with_isMuted (v : bool) (s : State) : State :=
  {| callStatus := callStatus s; isSpeaking := isSpeaking s;
     isListening := isListening s; isMuted := v; messages := messages s;
     audioLevel := audioLevel s; connectionQuality := connectionQuality s;
     lastUserInput := lastUserInput s;
     voiceActivityTimeout := voiceActivityTimeout s; retryCount := retryCount s;
     conversationContext := conversationContext s |}.

Definition with_messages (v : list SavedMessage) (s : State) : State :=
  {| callStatus := callStatus s; isSpeaking := isSpeaking s;
     isListening := isListening s; isMuted := isMuted s; messages := v;
     audioLevel := audioLevel s; connectionQuality := connectionQuality s;
     lastUserInput := lastUserInput s;
     voiceActivityTimeout := voiceActivityTimeout s; retryCount := retryCount s;
     conversationContext := conversationContext s |}.

Definition with_audioLevel (v : Q) (s : State) : State :=
  {| callStatus := callStatus s; isSpeaking := isSpeaking s;
     isListening := isListening s; isMuted := isMuted s; messages := messages s;
     audioLevel := v; connectionQuality := connectionQuality s;
     lastUserInput := lastUserInput s;
     voiceActivityTimeout := voiceActivityTimeout s; retryCount := retryCount s;
     conversationContext := conversationContext s |}.

Definition with_connectionQuality (v : string) (s : State) : State :=
  {| callStatus := callStatus s; isSpeaking := isSpeaking s;
     isListening := isListening s; isMuted := isMuted s; messages := messages s;
     audioLevel := audioLevel s; connectionQuality := v;
     lastUserInput := lastUserInput s;
     voiceActivityTimeout := voiceActivityTimeout s; retryCount := retryCount s;
     conversationContext := conversationContext s |}.

Definition with_lastUserInput (v : string) (s : State) : State :=
  {| callStatus := callStatus s; isSpeaking := isSpeaking s;
     isListening := isListening s; isMuted := isMuted s; messages := messages s;
     audioLevel := audioLevel s; connectionQuality := connectionQuality s;
     lastUserInput := v;
     voiceActivityTimeout := voiceActivityTimeout s; retryCount := retryCount s;
     conversationContext := conversationContext s |}.

Definition with_voiceActivityTimeout (v : option positive) (s : State) : State :=
  {| callStatus := callStatus s; isSpeaking := isSpeaking s;
     isListening := isListening s; isMuted := isMuted s; messages := messages s;
     audioLevel := audioLevel s; connectionQuality := connectionQuality s;
     lastUserInput := lastUserInput s;
     voiceActivityTimeout := v; retryCount := retryCount s;
     conversationContext := conversationContext s |}.

Definition with_retryCount (v : Z) (s : State) : State :=
  {| callStatus := callStatus s; isSpeaking := isSpeaking s;
     isListening := isListening s; isMuted := isMuted s; messages := messages s;
     audioLevel := audioLevel s; connectionQuality := connectionQuality s;
     lastUserInput := lastUserInput s;
     voiceActivityTimeout := voiceActivityTimeout s; retryCount := v;
     conversationContext := conversationContext s |}.

Definition with_conversationContext (v : ConversationContext) (s : State) : State :=
  {| callStatus := callStatus s; isSpeaking := isSpeaking s;
     isListening := isListening s; isMuted := isMuted s; messages := messages s;
     audioLevel := audioLevel s; connectionQuality := connectionQuality s;
     lastUserInput := lastUserInput s;
     voiceActivityTimeout := voiceActivityTimeout s; retryCount := retryCount s;
     conversationContext := v |}.

(** [{...prev, previousMessages: v}] and [{...prev, userPreferences: v}] *)
Definition with_previousMessages (v : list SavedMessage)
    (c : ConversationContext) : ConversationContext :=
  {| subject := subject c; topic := topic c; previousMessages := v;
     userPreferences := userPreferences c |}.

Definition with_userPreferences (v : UserPreferences)
    (c : ConversationContext) : ConversationContext :=
  {| subject := subject c; topic := topic c;
     previousMessages := previousMessages c; userPreferences := v |}.

(** ** The world and its primitive operations *)

(** A queued state update: applied to [cur], invisible to [snap]. *)
Definition queue (f : State → State) (w : World) : World :=
  {| cur := f (cur w); snap := snap w; timers := timers w;
     nextTimer := nextTimer w; vapiMuted := vapiMuted w;
     startsPending := startsPending w; stopsPending := stopsPending w;
     effects := effects w |}.

Definition emit (e : Effect) (w : World) : World :=
  {| cur := cur w; snap := snap w; timers := timers w;
     nextTimer := nextTimer w; vapiMuted := vapiMuted w;
     startsPending := startsPending w; stopsPending := stopsPending w;
     effects := effects w ++ [e] |}.

Definition with_timers (t : gmap positive Timer) (n : positive) (w : World) : World :=
  {| cur := cur w; snap := snap w; timers := t; nextTimer := n;
     vapiMuted := vapiMuted w; startsPending := startsPending w;
     stopsPending := stopsPending w; effects := effects w |}.

Definition with_vapiMuted (b : bool) (w : World) : World :=
  {| cur := cur w; snap := snap w; timers := timers w;
     nextTimer := nextTimer w; vapiMuted := b;
     startsPending := startsPending w; stopsPending := stopsPending w;
     effects := effects w |}.

Definition with_startsPending (l : list Awaiter) (w : World) : World :=
  {| cur := cur w; snap := snap w; timers := timers w;
     nextTimer := nextTimer w; vapiMuted := vapiMuted w;
     startsPending := l; stopsPending := stopsPending w;
     effects := effects w |}.

Definition with_stopsPending (n : nat) (w : World) : World :=
  {| cur := cur w; snap := snap w; timers := timers w;
     nextTimer := nextTimer w; vapiMuted := vapiMuted w;
     startsPending := startsPending w; stopsPending := n;
     effects := effects w |}.

(** The commit of a render. *)
Definition render (w : World) : World :=
  {| cur := cur w; snap := cur w; timers := timers w;
     nextTimer := nextTimer w; vapiMuted := vapiMuted w;
     startsPending := startsPending w; stopsPending := stopsPending w;
     effects := effects w |}.

(** The statements of a handler body, run in order. *)
Definition block (body : list (World → World)) : World → World :=
  λ w, fold_left (λ w' stmt, stmt w') body w.

Definition skip : World → World := λ w, w.

(** [setTimeout(cb, ms)]: a fresh handle, returned through [nextTimer]
    before the call. *)
Definition setTimeout (cb : Callback) (ms : Z) (w : World) : World :=
  with_timers (<[nextTimer w := {| delay := ms; callback := cb |}]> (timers w))
              (Pos.succ (nextTimer w)) w.

Definition clearTimeout (t : positive) (w : World) : World :=
  with_timers (delete t (timers w)) (nextTimer w) w.

(** [if (voiceActivityTimeout) clearTimeout(voiceActivityTimeout)], on the
    handle the closure captured. *)
Definition clearCaptured : World → World := λ w,
  match voiceActivityTimeout (snap w) with
  | Some t => clearTimeout t w
  | None => w
  end.

(** React setters. *)
Definition setCallStatus v := queue (with_callStatus v).
Definition setIsSpeaking v := queue (with_isSpeaking v).
Definition setIsListening v := queue (with_isListening v).
Definition setIsMuted v := queue (with_isMuted v).
Definition setAudioLevel v := queue (with_audioLevel v).
Definition setConnectionQuality v := queue (with_connectionQuality v).
Definition setLastUserInput v := queue (with_lastUserInput v).
Definition setVoiceActivityTimeout v := queue (with_voiceActivityTimeout v).
(** Setters called with an updater function [prev => ...]. *)
Definition setMessages (f : list SavedMessage → list SavedMessage) :=
  queue (λ s, with_messages (f (messages s)) s).
Definition setRetryCount (f : Z → Z) :=
  queue (λ s, with_retryCount (f (retryCount s)) s).
Definition setConversationContext (f : ConversationContext → ConversationContext) :=
  queue (λ s, with_conversationContext (f (conversationContext s)) s).

Definition console_log (msg : string) := emit (ConsoleLog msg).
Definition console_error (msg : string) := emit (ConsoleError msg).
Definition alert (msg : string) := emit (AlertUser msg).

(** ** The component *)

Section Component.
Context (props : Props.t).

(** The initial values of the [useState] cells. *)
Definition initialState : State :=
  {| callStatus := INACTIVE; isSpeaking := false; isListening := false;
     isMuted := false; messages := []; audioLevel := 0%Q;
     connectionQuality := "good"; lastUserInput := "";
     voiceActivityTimeout := None; retryCount := 0;
     conversationContext :=
       {| subject := Props.subject props; topic := Props.topic props;
          previousMessages := [];
          userPreferences :=
            {| voiceQuality := MEDIUM; noiseReduction := true;
               echoCancellation := true |} |} |}.

(** The component after its first render: nothing pending, nothing logged,
    the SDK not muted. *)
Definition mount : World :=
  {| cur := initialState; snap := initialState; timers := ∅;
     nextTimer := 1%positive; vapiMuted := false; startsPending := [];
     stopsPending := 0%nat; effects := [] |}.

(** *** Voice activity detection *)

(** The body of the timer callback: [if (isListening && !isSpeaking)] on
    the values captured when the timer was created. *)
Definition silenceTimerFired (capturedListening capturedSpeaking : bool)
    : World → World :=
  if capturedListening && negb capturedSpeaking
  then block [ setIsListening false;
               console_log "Voice activity timeout - stopped listening" ]
  else skip.

Definition resetVoiceActivityTimeout : World → World := λ w,
  let timeout := nextTimer w in
  block [ clearCaptured;
          setTimeout (SilenceCb (isListening (snap w)) (isSpeaking (snap w)))
                     3000;
          setVoiceActivityTimeout (Some timeout) ] w.

(** *** Starting and ending a call *)

(** [handleCall] up to its [await vapi.start(...)]. *)
Definition handleCall (awaiter : Awaiter) : World → World :=
  block [ setCallStatus CONNECTING;
          console_log "Starting call with configuration:";
          console_log "Calling vapi.start with:";
          emit (VapiStart (Props.voice props) (Props.style props)
                          (Props.subject props) (Props.topic props));
          λ w, with_startsPending (startsPending w ++ [awaiter]) w ].

(** [handleCall] after the [await]: the rest of [try], or [catch]. *)
Definition handleCall_settled (r : Settled) : World → World :=
  match r with
  | Fulfilled => console_log "vapi.start completed successfully"
  | Rejected =>
      block [ console_error "Failed to start call:";
              setCallStatus INACTIVE;
              alert "Failed to start conversation. Please check your connection and try again." ]
  end.

(** How the promise of [handleCall] itself settles: its whole body is
    inside [try], and [catch] completes normally. *)
Definition handleCall_result (r : Settled) : Settled :=
  match r with
  | Fulfilled => Fulfilled
  | Rejected => Fulfilled
  end.

(** [handleDisconnect] up to its [await vapi.stop()]. *)
Definition handleDisconnect : World → World :=
  block [ setCallStatus FINISHED;
          emit VapiStop;
          λ w, with_stopsPending (S (stopsPending w)) w ].

Definition handleDisconnect_settled (r : Settled) : World → World :=
  match r with
  | Fulfilled => console_log "Call disconnected successfully"
  | Rejected => console_error "Failed to disconnect:"
  end.

(** *** Retry logic *)

(** [retryConnection] as it is written.  Nothing in the component calls it:
    its only other occurrence is in the dependency list of the subscription
    effect, so no event of [step] below leads to it. *)
Definition retryConnection : World → World := λ w,
  if decide (retryCount (snap w) < 3)%Z then
    block [ setRetryCount (λ prev, (prev + 1)%Z);
            console_log "Retrying connection... Attempt";
            setTimeout (RetryCb (retryCount (snap w)))
                       (1000 * retryCount (snap w))%Z ] w
  else w.

(** The timer callback of [retryConnection] after [await handleCall()]. *)
Definition retryTimer_settled (capturedRetryCount : Z) (r : Settled)
    : World → World :=
  match r with
  | Fulfilled => skip
  | Rejected =>
      block [ console_error "Retry failed:";
              if decide (2 ≤ capturedRetryCount)%Z
              then block [ alert "Connection failed after 3 attempts. Please check your internet connection and try again.";
                           setCallStatus INACTIVE ]
              else skip ]
  end.

Definition runCallback (cb : Callback) : World → World :=
  match cb with
  | SilenceCb l s => silenceTimerFired l s
  | RetryCb c => handleCall (FromRetry c)
  end.

(** *** SDK event handlers *)

Definition onCallStart : World → World :=
  block [ setCallStatus ACTIVE;
          setRetryCount (λ _, 0);
          setConnectionQuality "good";
          console_log "Call started successfully" ].

Definition onCallEnd : World → World :=
  block [ setCallStatus FINISHED;
          setIsListening false;
          setIsSpeaking false;
          setAudioLevel 0%Q;
          clearCaptured;
          emit (AddToSessionHistory (Props.companionId props));
          console_log "Call ended" ].

(** [now] is what [new Date().toISOString()] returns when the handler
    runs. *)
Definition onMessage (message : Message.t) (now : string) : World → World :=
  block [ console_log "Message received:";
          if decide (Message.type message = "transcript") then
            if decide (Message.transcriptType message = "partial") then
              block [ setLastUserInput (Message.transcript message);
                      resetVoiceActivityTimeout ]
            else if decide (Message.transcriptType message = "final") then
              let newMessage :=
                {| role := Message.role message;
                   content := Message.transcript message;
                   timestamp := now |} in
              block [ setMessages (λ prev, newMessage :: prev);
                      setConversationContext (λ prev,
                        with_previousMessages
                          (take 10 (newMessage :: previousMessages prev)) prev);
                      setLastUserInput "" ]
            else skip
          else skip ].

Definition onSpeechStart : World → World :=
  block [ setIsSpeaking true;
          setIsListening false;
          clearCaptured;
          console_log "AI started speaking" ].

Definition onSpeechEnd : World → World :=
  block [ setIsSpeaking false; console_log "AI finished speaking" ].

Definition onTranscriptStart : World → World :=
  block [ setIsListening true;
          resetVoiceActivityTimeout;
          console_log "Started listening to user" ].

Definition onTranscriptEnd : World → World :=
  block [ setIsListening false; console_log "Stopped listening to user" ].

Definition onVolumeLevel (volume : Q) : World → World :=
  setAudioLevel volume.

Definition onConnectionQualityChange (quality : string) : World → World :=
  block [ setConnectionQuality quality;
          console_log "Connection quality changed:" ].

(** *** User controls *)

(** The SDK's [isMuted] and [setMuted] on their non-throwing path. *)
Definition toggleMicrophone : World → World := λ w,
  let currentMutedState := vapiMuted w in
  block [ emit (VapiSetMuted (negb currentMutedState));
          with_vapiMuted (negb currentMutedState);
          setIsMuted (negb currentMutedState);
          console_log "Microphone toggled:" ] w.

Definition updateVoiceQuality (quality : VoiceQuality) : World → World :=
  setConversationContext (λ prev,
    with_userPreferences
      {| voiceQuality := quality;
         noiseReduction := noiseReduction (userPreferences prev);
         echoCancellation := echoCancellation (userPreferences prev) |} prev).

Definition onChangeNoiseReduction (checked : bool) : World → World :=
  setConversationContext (λ prev,
    with_userPreferences
      {| voiceQuality := voiceQuality (userPreferences prev);
         noiseReduction := checked;
         echoCancellation := echoCancellation (userPreferences prev) |} prev).

Definition onChangeEchoCancellation (checked : bool) : World → World :=
  setConversationContext (λ prev,
    with_userPreferences
      {| voiceQuality := voiceQuality (userPreferences prev);
         noiseReduction := noiseReduction (userPreferences prev);
         echoCancellation := checked |} prev).

(** The [keydown] listener; it is re-created when [callStatus] changes. *)
Definition handleKeyPress (key : string) (ctrlKey : bool) : World → World := λ w,
  if decide (key = " " ∧ ctrlKey = true) then
    block [ emit PreventDefault;
            if decide (callStatus (snap w) = ACTIVE)
            then toggleMicrophone else skip ] w
  else if decide (key = "Escape") then
    (if decide (callStatus (snap w) = ACTIVE)
     then handleDisconnect else skip) w
  else if decide (key = "Enter" ∧ ctrlKey = true) then
    block [ emit PreventDefault;
            if decide (callStatus (snap w) = INACTIVE)
            then handleCall FromHandler else skip ] w
  else w.

(** The settings panel is part of the tree only when the rendered phase is
    INACTIVE or FINISHED. *)
Definition settingsShown (w : World) : bool :=
  bool_decide (callStatus (snap w) = INACTIVE)
  || bool_decide (callStatus (snap w) = FINISHED).

(** *** Events *)

Inductive Event :=
(* the nine SDK events *)
| SdkCallStart
| SdkCallEnd
| SdkMessage (message : Message.t) (now : string)
| SdkSpeechStart
| SdkSpeechEnd
| SdkTranscriptStart
| SdkTranscriptEnd
| SdkVolumeLevel (volume : Q)
| SdkConnectionQualityChange (quality : string)
(* the user *)
| KeyDown (key : string) (ctrlKey : bool)
| ClickMic
| ClickCall
| ClickClear
| ChangeNoiseReduction (checked : bool)
| ChangeEchoCancellation (checked : bool)
| ChangeVoiceQuality (quality : VoiceQuality)
(* the runtime *)
| TimerFire (t : positive)
| StartSettled (r : Settled)
| StopSettled (r : Settled)
| Render.

Definition step (e : Event) : World → World := λ w,
  match e with
  | SdkCallStart => onCallStart w
  | SdkCallEnd => onCallEnd w
  | SdkMessage message now => onMessage message now w
  | SdkSpeechStart => onSpeechStart w
  | SdkSpeechEnd => onSpeechEnd w
  | SdkTranscriptStart => onTranscriptStart w
  | SdkTranscriptEnd => onTranscriptEnd w
  | SdkVolumeLevel volume => onVolumeLevel volume w
  | SdkConnectionQualityChange quality => onConnectionQualityChange quality w
  | KeyDown key ctrlKey => handleKeyPress key ctrlKey w
  | ClickMic =>
      (* disabled={callStatus !== CallStatus.ACTIVE} *)
      if decide (callStatus (snap w) = ACTIVE) then toggleMicrophone w else w
  | ClickCall =>
      (* disabled={callStatus === CallStatus.CONNECTING};
         onClick={callStatus === ACTIVE ? handleDisconnect : handleCall} *)
      if decide (callStatus (snap w) = CONNECTING) then w
      else if decide (callStatus (snap w) = ACTIVE) then handleDisconnect w
      else handleCall FromHandler w
  | ClickClear =>
      (* {messages.length > 0 && <button onClick={() => setMessages([])}> *)
      match messages (snap w) with
      | [] => w
      | _ :: _ => setMessages (λ _, []) w
      end
  | ChangeNoiseReduction checked =>
      if settingsShown w then onChangeNoiseReduction checked w else w
  | ChangeEchoCancellation checked =>
      if settingsShown w then onChangeEchoCancellation checked w else w
  | ChangeVoiceQuality quality =>
      if settingsShown w then updateVoiceQuality quality w else w
  | TimerFire t =>
      match timers w !! t with
      | Some tm => runCallback (callback tm) (clearTimeout t w)
      | None => w
      end
  | StartSettled r =>
      match startsPending w with
      | [] => w
      | awaiter :: rest =>
          let w' := handleCall_settled r (with_startsPending rest w) in
          match awaiter with
          | FromHandler => w'
          | FromRetry c => retryTimer_settled c (handleCall_result r) w'
          end
      end
  | StopSettled r =>
      match stopsPending w with
      | O => w
      | S n => handleDisconnect_settled r (with_stopsPending n w)
      end
  | Render => render w
  end.

(** A trace of events, oldest first. *)
Definition run (tr : list Event) (w : World) : World :=
  fold_left (λ w' e, step e w') tr w.

(** The same trace when the component re-renders after every event, so
    that every handler runs on the closures of the state it follows. *)
Definition run_rendered (tr : list Event) (w : World) : World :=
  fold_left (λ w' e, render (step e w')) tr w.

End Component.

(** ** Vocabulary of the properties *)

(** A message event is a final transcript when [onMessage] reaches its
    [transcriptType === 'final'] branch. *)
Definition isFinal (message : Message.t) : bool :=
  bool_decide (Message.type message = "transcript")
  && bool_decide (Message.transcriptType message = "final").

(** A message event is a partial transcript when [onMessage] reaches its
    [transcriptType === 'partial'] branch. *)
Definition isPartial (message : Message.t) : bool :=
  bool_decide (Message.type message = "transcript")
  && bool_decide (Message.transcriptType message = "partial").

(** The entry a final transcript received at [now] adds to the transcript. *)
Definition savedOf (ev : Message.t * string) : SavedMessage :=
  {| role := Message.role ev.1; content := Message.transcript ev.1;
     timestamp := ev.2 |}.

(** The entries of the final transcripts among the message events [evs], in
    arrival order. *)
Definition finals (evs : list (Message.t * string)) : list SavedMessage :=
  savedOf <$> filter (λ ev, isFinal ev.1 = true) evs.

(** The message events [evs] as a trace of SDK events. *)
Definition deliver (evs : list (Message.t * string)) : list Event :=
  (λ ev, SdkMessage ev.1 ev.2) <$> evs.

(** The companions recorded in the session history by a log. *)
Definition historyCalls (log : list Effect) : list string :=
  omap (λ e, match e with AddToSessionHistory c => Some c | _ => None end) log.

(** The [setMuted] calls of a log. *)
Definition setMutedCalls (log : list Effect) : list bool :=
  omap (λ e, match e with VapiSetMuted b => Some b | _ => None end) log.

(** The [vapi.start] calls of a log. *)
Definition startCalls (log : list Effect) : list Effect :=
  omap (λ e, match e with VapiStart _ _ _ _ => Some e | _ => None end) log.

(** The alerts of a log. *)
Definition alerts (log : list Effect) : list string :=
  omap (λ e, match e with AlertUser m => Some m | _ => None end) log.

Definition isCallEnd (e : Event) : bool :=
  match e with SdkCallEnd => true | _ => false end.

(** The events that arm the silence timer: the start of user speech
    capture and a partial transcript. *)
Definition arms (e : Event) : bool :=
  match e with
  | SdkTranscriptStart => true
  | SdkMessage message _ => isPartial message
  | _ => false
  end.

(** The events the phase is said to follow once a call is connecting. *)
Definition movesConnecting (e : Event) : bool :=
  match e with
  | SdkCallStart | SdkCallEnd | StartSettled Rejected => true
  | _ => false
  end.

(** A pending timer of the voice-activity detection. *)
Definition isSilence (tm : Timer) : Prop :=
  ∃ l s, callback tm = SilenceCb l s.

(** No retry is under way: no timer of [retryConnection] is pending and the
    retry counter stands at 0. *)
Definition noRetry (w : World) : Prop :=
  map_Forall (λ _ tm, isSilence tm) (timers w)
  ∧ retryCount (cur w) = 0
  ∧ retryCount (snap w) = 0.

(** A call that is connecting was not started from a page that shows an
    active call. *)
Definition phaseCoherent (w : World) : Prop :=
  callStatus (cur w) = CONNECTING → callStatus (snap w) ≠ ACTIVE.

(** The handlers are those of the current state, and the only timer that can
    be pending is the one whose handle the state holds. *)
Definition oneTimer (w : World) : Prop :=
  snap w = cur w
  ∧ ∀ t, is_Some (timers w !! t) → voiceActivityTimeout (cur w) = Some t.

(** The events by which the user asks for a call. *)
Definition userStart (e : Event) : bool :=
  match e with
  | ClickCall | KeyDown _ _ => true
  | _ => false
  end.

(** A companion page and SDK messages for the scenarios. *)
Definition demo : Props.t :=
  {| Props.companionId := "c-42"; Props.subject := "maths";
     Props.topic := "derivatives"; Props.name := "Neura the Explorer";
     Props.userName := "Ada"; Props.userImage := "/ada.png";
     Props.style := "casual"; Props.voice := "female" |}.

Definition partialTranscript (text : string) : Message.t :=
  {| Message.type := "transcript"; Message.transcriptType := "partial";
     Message.role := "user"; Message.transcript := text |}.

Definition finalTranscript (who text : string) : Message.t :=
  {| Message.type := "transcript"; Message.transcriptType := "final";
     Message.role := who; Message.transcript := text |}.

(** The demo page during a call: started by the button and confirmed by the
    SDK. *)
Definition activeWorld : World :=
  run demo [ClickCall; Render; SdkCallStart; Render] (mount demo).

(** The demo page with one message in its transcript. *)
Definition talkedWorld : World :=
  run demo [SdkMessage (finalTranscript "user" "hello") "2025-01-01T10:00:00.000Z";
            Render] activeWorld.


(** ** Further vocabulary *)

(** The message events of a trace, each with the clock it was received at. *)
Definition messageEvents (tr : list Event) : list (Message.t * string) :=
  omap (λ e, match e with
             | SdkMessage message now => Some (message, now)
             | _ => None
             end) tr.

(** The calls a log makes on the SDK: start, stop and setMuted. *)
Definition sdkCalls (log : list Effect) : list Effect :=
  omap (λ e, match e with
             | VapiStart _ _ _ _ | VapiStop | VapiSetMuted _ => Some e
             | _ => None
             end) log.

(** The events the user causes: keys and clicks. *)
Definition isUserEvent (e : Event) : bool :=
  match e with
  | KeyDown _ _ | ClickMic | ClickCall | ClickClear
  | ChangeNoiseReduction _ | ChangeEchoCancellation _ | ChangeVoiceQuality _ =>
      true
  | _ => false
  end.

(** The three controls of the settings panel. *)
Definition isSettingsEvent (e : Event) : bool :=
  match e with
  | ChangeNoiseReduction _ | ChangeEchoCancellation _ | ChangeVoiceQuality _ =>
      true
  | _ => false
  end.

(** *** Derived display values *)

(** [name.split(' ')[0]]: the text before the first space. *)
Fixpoint firstWord (s : string) : string :=
  match s with
  | EmptyString => EmptyString
  | String c rest =>
      if Ascii.eqb c " "%char then EmptyString else String c (firstWord rest)
  end.

(** [.replace(/[.,]/g, '')]: every full stop and comma removed. *)
Fixpoint removeDotsCommas (s : string) : string :=
  match s with
  | EmptyString => EmptyString
  | String c rest =>
      if Ascii.eqb c "."%char || Ascii.eqb c ","%char
      then removeDotsCommas rest
      else String c (removeDotsCommas rest)
  end.

(** The speaker shown on the assistant's rows of the transcript:
    [name.split(' ')[0].replace(/[.,]/g, '')]. *)
Definition assistantLabel (name : string) : string :=
  removeDotsCommas (firstWord name).

(** The characters of a string. *)
Fixpoint chars (s : string) : list ascii :=
  match s with
  | EmptyString => []
  | String c rest => c :: chars rest
  end.

(** The text of the call button. *)
Definition callButtonLabel (s : State) : string :=
  if decide (callStatus s = ACTIVE) then "End Session"
  else if decide (callStatus s = CONNECTING) then
    String.append "Connecting"
      (String.append
         (if decide (0 < retryCount s)%Z
          then String.append " ("
                 (String.append (pretty (retryCount s)) "/3)")
          else "")
         "...")
  else "Start Session".

(** [n] calls of [retryConnection], the page re-rendering after each. *)
Fixpoint retryTimes (n : nat) (w : World) : World :=
  match n with
  | O => w
  | S n' => render (retryConnection (retryTimes n' w))
  end.

(** The demo page after its call has ended. *)
Definition finishedWorld : World :=
  run demo [SdkCallEnd; Render] activeWorld.

(** The demo page listening to the user, the silence timer armed. *)
Definition listeningWorld : World :=
  run_rendered demo
    [SdkTranscriptStart;
     SdkMessage (partialTranscript "hel") "2025-01-01T10:00:00.000Z"]
    activeWorld.


(** The rejection of a start call. *)
Definition isStartRejected (e : Event) : bool :=
  match e with StartSettled Rejected => true | _ => false end.




(** A click on the clear button. *)
Definition isClear (e : Event) : bool :=
  match e with ClickClear => true | _ => false end.

(** ** Properties *)

Section Properties.
Context (props : Props.t).

(** Unfolds the handlers down to the primitive operations. *)
Ltac handlers :=
  unfold step, onCallStart, onCallEnd, onMessage, onSpeechStart, onSpeechEnd,
    onTranscriptStart, onTranscriptEnd, onVolumeLevel,
    onConnectionQualityChange, handleKeyPress, toggleMicrophone,
    updateVoiceQuality, onChangeNoiseReduction, onChangeEchoCancellation,
    handleCall, handleCall_settled, handleCall_result, handleDisconnect,
    handleDisconnect_settled, retryTimer_settled, runCallback,
    silenceTimerFired, resetVoiceActivityTimeout, clearCaptured,
    settingsShown, block, skip in *;
  cbn in *.

(** Splits on every test a handler makes. *)
Ltac branches := repeat (first [case_decide | case_match]; cbn in *).

(** Closes the branches whose tests contradict each other. *)
Ltac contra :=
  try solve [congruence | intuition congruence | intuition discriminate].

(** *** Traces *)

Lemma run_snoc tr e w : run props (tr ++ [e]) w = step props e (run props tr w).
Proof. unfold run. by rewrite fold_left_app. Qed.

Lemma run_app tr1 tr2 w :
  run props (tr1 ++ tr2) w = run props tr2 (run props tr1 w).
Proof. unfold run. by rewrite fold_left_app. Qed.

Lemma run_rendered_snoc tr e w :
  run_rendered props (tr ++ [e]) w =
  render (step props e (run_rendered props tr w)).
Proof. unfold run_rendered. by rewrite fold_left_app. Qed.

(** *** The transcript *)

Lemma onMessage_messages message now w :
  messages (cur (step props (SdkMessage message now) w)) =
  if isFinal message then savedOf (message, now) :: messages (cur w)
  else messages (cur w).
Proof.
  unfold isFinal, savedOf. handlers. branches;
    repeat match goal with
    | H : _ = _ |- _ => rewrite H in *
    end; try done.
Qed.

Lemma onMessage_lastUserInput message now w :
  lastUserInput (cur (step props (SdkMessage message now) w)) =
  if isFinal message then ""
  else if isPartial message then Message.transcript message
  else lastUserInput (cur w).
Proof.
  unfold isFinal, isPartial. handlers. branches;
    repeat match goal with
    | H : _ = _ |- _ => rewrite H in *
    end; try done.
Qed.

Lemma onMessage_previousMessages message now w :
  previousMessages (conversationContext (cur (step props (SdkMessage message now) w))) =
  if isFinal message
  then take 10 (savedOf (message, now)
                  :: previousMessages (conversationContext (cur w)))
  else previousMessages (conversationContext (cur w)).
Proof.
  unfold isFinal, savedOf. handlers. branches;
    repeat match goal with
    | H : _ = _ |- _ => rewrite H in *
    end; try done.
Qed.

Lemma render_cur w : cur (render w) = cur w.
Proof. reflexivity. Qed.

Lemma finals_snoc evs ev :
  finals (evs ++ [ev]) =
  finals evs ++ (if isFinal ev.1 then [savedOf ev] else []).
Proof.
  unfold finals. rewrite filter_app, fmap_app. f_equal.
  rewrite filter_cons, filter_nil.
  destruct (isFinal ev.1); case_decide; done.
Qed.

Lemma deliver_snoc evs ev :
  deliver (evs ++ [ev]) = deliver evs ++ [SdkMessage ev.1 ev.2].
Proof. unfold deliver. by rewrite fmap_app. Qed.

Lemma finals_length evs :
  length (finals evs) = length (filter (λ ev, isFinal ev.1 = true) evs).
Proof. unfold finals. by rewrite length_fmap. Qed.

(** The transcript after the message events [evs], whether or not the
    component re-renders between them. *)
Lemma messages_deliver evs :
  messages (cur (run props (deliver evs) (mount props))) = reverse (finals evs).
Proof.
  induction evs as [|ev evs IH] using rev_ind; [done|].
  rewrite deliver_snoc, run_snoc, finals_snoc, reverse_app.
  destruct ev as [message now].
  rewrite onMessage_messages, IH. cbn.
  by destruct (isFinal message).
Qed.

Lemma messages_deliver_rendered evs :
  messages (cur (run_rendered props (deliver evs) (mount props))) =
  reverse (finals evs).
Proof.
  induction evs as [|ev evs IH] using rev_ind; [done|].
  rewrite deliver_snoc, run_rendered_snoc, finals_snoc, reverse_app, render_cur.
  destruct ev as [message now].
  rewrite onMessage_messages, IH. cbn.
  by destruct (isFinal message).
Qed.

(** C2. Each final transcript event puts exactly one new message, made of
    the event's role and text and of the clock's ISO timestamp, at the front
    of the message list and clears the in-flight utterance; no other message
    event changes the list, a partial transcript in particular.  Hence after
    any sequence of transcript events received by the mounted component the
    list holds the final events, newest first, and is as long as their
    number. *)
Theorem transcript_lists_final_events (evs : list (Message.t * string)) :
  (∀ message now w,
     messages (cur (step props (SdkMessage message now) w)) =
       (if isFinal message
        then [{| role := Message.role message;
                 content := Message.transcript message;
                 timestamp := now |}]
        else []) ++ messages (cur w)
     ∧ (if isFinal message
        then lastUserInput (cur (step props (SdkMessage message now) w)) = ""
        else True))
  ∧ messages (cur (run props (deliver evs) (mount props))) = reverse (finals evs)
  ∧ messages (cur (run_rendered props (deliver evs) (mount props))) =
      reverse (finals evs)
  ∧ length (messages (cur (run props (deliver evs) (mount props)))) =
      length (filter (λ ev, isFinal ev.1 = true) evs).
Proof.
  split; [|split; [|split]].
  - intros message now w.
    rewrite onMessage_messages, onMessage_lastUserInput.
    by destruct (isFinal message).
  - apply messages_deliver.
  - apply messages_deliver_rendered.
  - by rewrite messages_deliver, length_reverse, finals_length.
Qed.

(** *** The context window *)

Lemma step_previousMessages_bound e w :
  (length (previousMessages (conversationContext (cur w))) ≤ 10)%nat →
  (length (previousMessages (conversationContext (cur (step props e w)))) ≤ 10)%nat.
Proof.
  intros Hw. destruct e; handlers; branches; try done.
  rewrite length_take. lia.
Qed.

Lemma previousMessages_bound tr :
  (length (previousMessages
             (conversationContext (cur (run props tr (mount props))))) ≤ 10)%nat.
Proof.
  induction tr as [|e tr IH] using rev_ind; [cbn; lia|].
  rewrite run_snoc. by apply step_previousMessages_bound.
Qed.

Lemma take_cons_take {A} (n : nat) (x : A) (l : list A) :
  take (S n) (x :: take (S n) l) = take (S n) (x :: l).
Proof. cbn. f_equal. rewrite take_take. f_equal. lia. Qed.

Lemma previousMessages_deliver evs :
  previousMessages
    (conversationContext (cur (run props (deliver evs) (mount props)))) =
  take 10 (reverse (finals evs)).
Proof.
  induction evs as [|ev evs IH] using rev_ind; [done|].
  rewrite deliver_snoc, run_snoc, finals_snoc, reverse_app.
  destruct ev as [message now].
  rewrite onMessage_previousMessages, IH.
  cbn [fst snd]. destruct (isFinal message); [|done].
  change (reverse [savedOf (message, now)]) with [savedOf (message, now)].
  cbn [app]. apply take_cons_take.
Qed.

(** C3. The context window [previousMessages] never holds more than ten
    entries, whatever events the mounted component has received; a final
    transcript event puts its message in front and keeps the first ten, so
    that after any sequence of transcript events the window is the ten most
    recent messages, newest first. *)
Theorem context_window_last_ten (tr : list Event) (evs : list (Message.t * string)) :
  (length (previousMessages
             (conversationContext (cur (run props tr (mount props))))) ≤ 10)%nat
  ∧ (∀ message now w,
       previousMessages
         (conversationContext (cur (step props (SdkMessage message now) w))) =
       if isFinal message
       then take 10 ({| role := Message.role message;
                        content := Message.transcript message;
                        timestamp := now |}
                       :: previousMessages (conversationContext (cur w)))
       else previousMessages (conversationContext (cur w)))
  ∧ previousMessages
      (conversationContext (cur (run props (deliver evs) (mount props)))) =
    take 10 (messages (cur (run props (deliver evs) (mount props))))
  ∧ messages (cur (run props (deliver evs) (mount props))) = reverse (finals evs).
Proof.
  split; [|split; [|split]].
  - apply previousMessages_bound.
  - intros. apply onMessage_previousMessages.
  - by rewrite previousMessages_deliver, messages_deliver.
  - apply messages_deliver.
Qed.

(** *** The end of a call *)

Lemma step_historyCalls e w :
  historyCalls (effects (step props e w)) =
  historyCalls (effects w)
  ++ (if isCallEnd e then [Props.companionId props] else []).
Proof.
  unfold historyCalls.
  destruct e; handlers; branches; rewrite ?omap_app; cbn;
    rewrite ?app_nil_r; done.
Qed.

Lemma historyCalls_run tr w :
  historyCalls (effects (run props tr w)) =
  historyCalls (effects w)
  ++ replicate (length (filter (λ e, isCallEnd e = true) tr))
               (Props.companionId props).
Proof.
  induction tr as [|e tr IH] using rev_ind.
  - cbn. by rewrite app_nil_r.
  - rewrite run_snoc, step_historyCalls, IH, filter_app, length_app.
    rewrite replicate_add, <- !app_assoc. do 2 f_equal.
    rewrite filter_cons, filter_nil.
    destruct (isCallEnd e); case_decide; done.
Qed.

(** C6. When the SDK reports the end of the call the phase becomes FINISHED
    whatever it was, and the handler records the session once, under the
    companion's identity: over any trace received by the mounted component
    the history store is called once per call-end event, each time with
    [companionId]. *)
Theorem call_end_finishes_and_records (tr : list Event) :
  (∀ w, callStatus (cur (step props SdkCallEnd w)) = FINISHED
        ∧ effects (step props SdkCallEnd w) =
            effects w ++ [AddToSessionHistory (Props.companionId props);
                          ConsoleLog "Call ended"]
        ∧ historyCalls (effects (step props SdkCallEnd w)) =
            historyCalls (effects w) ++ [Props.companionId props])
  ∧ historyCalls (effects (run props tr (mount props))) =
      replicate (length (filter (λ e, isCallEnd e = true) tr))
                (Props.companionId props).
Proof.
  split.
  - intros w. split; [|split].
    + by handlers; branches.
    + handlers; branches; by rewrite <- app_assoc.
    + by rewrite step_historyCalls.
  - by rewrite historyCalls_run.
Qed.

(** *** The start of a call *)

(** C7. When the SDK confirms the connection the phase becomes ACTIVE, from
    CONNECTING as from any other phase, the retry counter is reset to 0 and
    the connection quality to "good"; nothing else of the state changes. *)
Theorem call_start_activates_and_resets (w : World) :
  callStatus (cur (step props SdkCallStart w)) = ACTIVE
  ∧ retryCount (cur (step props SdkCallStart w)) = 0
  ∧ connectionQuality (cur (step props SdkCallStart w)) = "good"
  ∧ cur (step props SdkCallStart w) =
      with_connectionQuality "good"
        (with_retryCount 0 (with_callStatus ACTIVE (cur w))).
Proof. by handlers. Qed.

(** *** Disconnecting *)

Lemma stop_settled_cur r w : cur (step props (StopSettled r) w) = cur w.
Proof. handlers. by destruct r; branches. Qed.

(** C8. Ending an active session, by the button or by Escape, sets the phase
    to FINISHED and calls the SDK's stop.  However the stop call settles, the
    state is not touched again: a failure only writes to the error console,
    and the phase is FINISHED as on success. *)
Theorem disconnect_finishes_even_on_failure (w : World) (ctrlKey : bool)
    (Hactive : callStatus (snap w) = ACTIVE) :
  step props (KeyDown "Escape" ctrlKey) w = step props ClickCall w
  ∧ callStatus (cur (step props ClickCall w)) = FINISHED
  ∧ effects (step props ClickCall w) = effects w ++ [VapiStop]
  ∧ (∀ r w', cur (step props (StopSettled r) w') = cur w')
  ∧ callStatus (cur (step props (StopSettled Rejected) (step props ClickCall w))) =
      FINISHED
  ∧ effects (step props (StopSettled Rejected) (step props ClickCall w)) =
      effects w ++ [VapiStop; ConsoleError "Failed to disconnect:"]
  ∧ cur (step props (StopSettled Rejected) (step props ClickCall w)) =
      cur (step props (StopSettled Fulfilled) (step props ClickCall w)).
Proof.
  repeat split.
  - handlers. by branches; contra.
  - handlers. by branches; contra.
  - handlers. by branches; contra.
  - intros. apply stop_settled_cur.
  - rewrite stop_settled_cur. handlers. by branches; contra.
  - handlers. branches; contra. by rewrite <- app_assoc.
  - by rewrite !stop_settled_cur.
Qed.

(** *** The mute control *)

(** C9. While the rendered phase is not ACTIVE the mute control does
    nothing: the button is disabled, so that a click changes nothing at all,
    and Ctrl+Space only cancels the key's default action.  Neither changes
    the mute flag or any other state, and neither calls the SDK's
    [setMuted]. *)
Theorem mute_is_noop_unless_active (w : World)
    (Hphase : callStatus (snap w) ≠ ACTIVE) :
  step props ClickMic w = w
  ∧ cur (step props (KeyDown " " true) w) = cur w
  ∧ vapiMuted (step props (KeyDown " " true) w) = vapiMuted w
  ∧ effects (step props (KeyDown " " true) w) = effects w ++ [PreventDefault]
  ∧ setMutedCalls (effects (step props (KeyDown " " true) w)) =
      setMutedCalls (effects w).
Proof.
  repeat split; handlers; branches; contra; try done.
  unfold setMutedCalls. rewrite omap_app. cbn. by rewrite app_nil_r.
Qed.

(** *** Clearing the transcript *)

(** C10. The clear button, which is shown when the rendered message list is
    not empty, empties the message list and changes nothing else: the
    context window, the in-flight utterance, the phase, the mute flag and
    the preferences are as before, as are the timers and the SDK. *)
Theorem clear_empties_only_the_message_list (w : World)
    (Hshown : messages (snap w) ≠ []) :
  messages (cur (step props ClickClear w)) = []
  ∧ cur (step props ClickClear w) = with_messages [] (cur w)
  ∧ previousMessages (conversationContext (cur (step props ClickClear w))) =
      previousMessages (conversationContext (cur w))
  ∧ lastUserInput (cur (step props ClickClear w)) = lastUserInput (cur w)
  ∧ callStatus (cur (step props ClickClear w)) = callStatus (cur w)
  ∧ isMuted (cur (step props ClickClear w)) = isMuted (cur w)
  ∧ userPreferences (conversationContext (cur (step props ClickClear w))) =
      userPreferences (conversationContext (cur w))
  ∧ timers (step props ClickClear w) = timers w
  ∧ vapiMuted (step props ClickClear w) = vapiMuted w
  ∧ effects (step props ClickClear w) = effects w.
Proof.
  handlers. destruct (messages (snap w)) as [|m l] eqn:E; [done|].
  by cbn.
Qed.

(** *** What is reachable from the mounted component *)

Lemma noRetry_mount : noRetry (mount props).
Proof. split; [apply map_Forall_empty | done]. Qed.

Lemma noRetry_step e w : noRetry w → noRetry (step props e w).
Proof.
  intros (Htm & Hc & Hs).
  assert (Hdel : ∀ t, map_Forall (λ _ tm, isSilence tm) (delete t (timers w))).
  { intros t. by apply map_Forall_delete. }
  assert (Hins : ∀ t n l s,
    map_Forall (λ _ tm, isSilence tm)
      (<[n := {| delay := 3000; callback := SilenceCb l s |}]>
         (delete t (timers w)))).
  { intros. apply map_Forall_insert_2; [by eexists _, _ | apply Hdel]. }
  assert (Hins' : ∀ n l s,
    map_Forall (λ _ tm, isSilence tm)
      (<[n := {| delay := 3000; callback := SilenceCb l s |}]> (timers w))).
  { intros. apply map_Forall_insert_2; [by eexists _, _ | done]. }
  unfold noRetry.
  destruct e; handlers; branches; contra; try (by repeat split).
  all: match goal with
       | H : timers _ !! _ = Some ?tm, E : callback ?tm = RetryCb _ |- _ =>
           destruct (Htm _ _ H) as (? & ? & ?); congruence
       end.
Qed.

Lemma phaseCoherent_step e w :
  noRetry w → phaseCoherent w → phaseCoherent (step props e w).
Proof.
  intros (Htm & _ & _) Hw. unfold phaseCoherent in *.
  destruct e; handlers; branches; contra; try done.
  all: match goal with
       | H : timers _ !! _ = Some ?tm, E : callback ?tm = RetryCb _ |- _ =>
           destruct (Htm _ _ H) as (? & ? & ?); congruence
       end.
Qed.

Lemma reachable tr :
  noRetry (run props tr (mount props))
  ∧ phaseCoherent (run props tr (mount props)).
Proof.
  induction tr as [|e tr [IH1 IH2]] using rev_ind.
  - split; [apply noRetry_mount | done].
  - rewrite run_snoc. split;
      [by apply noRetry_step | by apply phaseCoherent_step].
Qed.

(** *** Starting a session *)

Lemma connecting_stays e w :
  phaseCoherent w →
  callStatus (cur w) = CONNECTING →
  movesConnecting e = false →
  callStatus (cur (step props e w)) = CONNECTING.
Proof.
  intros Hw Hc He. unfold phaseCoherent in *.
  destruct e; handlers; branches; contra; try done.
  all: by destruct Hw.
Qed.

Lemma start_rejected w :
  startsPending w ≠ [] →
  callStatus (cur (step props (StartSettled Rejected) w)) = INACTIVE
  ∧ alerts (effects (step props (StartSettled Rejected) w)) =
      alerts (effects w)
      ++ ["Failed to start conversation. Please check your connection and try again."].
Proof.
  intros Hp. unfold alerts. handlers. branches; contra.
  all: by rewrite !omap_app, !app_nil_r.
Qed.

(** C4. Starting a session from a page that shows INACTIVE or FINISHED sets
    the phase to CONNECTING at once and calls the SDK's start.  While the
    mounted component is connecting, no event other than the SDK's
    call-start and call-end and the rejection of the start call changes the
    phase.  When the start call rejects, the component alerts the user and
    sets the phase to INACTIVE. *)
Theorem start_connects_until_the_sdk_answers (w : World) (tr : list Event)
    (e : Event)
    (Hidle : callStatus (snap w) = INACTIVE ∨ callStatus (snap w) = FINISHED)
    (Hconnecting : callStatus (cur (run props tr (mount props))) = CONNECTING)
    (Hother : movesConnecting e = false) :
  callStatus (cur (step props ClickCall w)) = CONNECTING
  ∧ startCalls (effects (step props ClickCall w)) =
      startCalls (effects w)
      ++ [VapiStart (Props.voice props) (Props.style props)
                    (Props.subject props) (Props.topic props)]
  ∧ (callStatus (snap w) = INACTIVE →
     step props (KeyDown "Enter" true) w =
     step props ClickCall (emit PreventDefault w))
  ∧ callStatus (cur (step props e (run props tr (mount props)))) = CONNECTING
  ∧ (∀ w', startsPending w' ≠ [] →
       callStatus (cur (step props (StartSettled Rejected) w')) = INACTIVE
       ∧ alerts (effects (step props (StartSettled Rejected) w')) =
           alerts (effects w')
           ++ ["Failed to start conversation. Please check your connection and try again."]).
Proof.
  split; [|split; [|split; [|split]]].
  - handlers. destruct Hidle; branches; contra; done.
  - unfold startCalls. handlers.
    destruct Hidle; branches; contra; by rewrite !omap_app, !app_nil_r.
  - intros Hi. handlers. branches; contra; done.
  - apply connecting_stays; [apply reachable | done..].
  - apply start_rejected.
Qed.

(** *** Retries *)

(** What [retryConnection] does when it is called: below three retries it
    counts one more and schedules a call after [1000 * retryCount]
    milliseconds, with the count of the render it was created in; from three
    on it does nothing. *)
Lemma retryConnection_schedules w :
  retryConnection w =
  if decide (retryCount (snap w) < 3)
  then setTimeout (RetryCb (retryCount (snap w))) (1000 * retryCount (snap w))
         (console_log "Retrying connection... Attempt"
            (setRetryCount (λ prev, prev + 1) w))
  else w.
Proof. unfold retryConnection. by case_decide. Qed.

(** The alerts an event adds: the one of [handleCall], when a pending start
    call rejects, and no other.  The alert of the retry timer is never
    raised, because [handleCall] settles its own failures. *)
Lemma step_alerts e w :
  alerts (effects (step props e w)) =
  alerts (effects w)
  ++ match e, startsPending w with
     | StartSettled Rejected, _ :: _ =>
         ["Failed to start conversation. Please check your connection and try again."]
     | _, _ => []
     end.
Proof.
  unfold alerts.
  destruct e; handlers; branches; contra;
    rewrite ?omap_app, ?app_nil_r; cbn; rewrite ?app_nil_r; done.
Qed.

(** Only the user starts a call: no other event of a trace of the mounted
    component reaches [vapi.start]. *)
Lemma step_startCalls e w :
  noRetry w →
  userStart e = false →
  startCalls (effects (step props e w)) = startCalls (effects w).
Proof.
  intros (Htm & _ & _) He. unfold startCalls.
  destruct e; handlers; branches; contra;
    rewrite ?omap_app, ?app_nil_r; cbn; rewrite ?app_nil_r; try done.
  all: match goal with
       | H : timers _ !! _ = Some ?tm, E : callback ?tm = RetryCb _ |- _ =>
           destruct (Htm _ _ H) as (? & ? & ?); congruence
       end.
Qed.

(** C1, on the code.  The user starts a session and the SDK's start call
    rejects: the component alerts and returns to INACTIVE on this first
    failure, with the retry counter still at 0, no timer pending and one
    start call made.  On every trace of the mounted component the retry
    counter is 0 and no retry timer is pending, and an event that is not the
    user's does not call the SDK's start: [retryConnection] is never
    called. *)
Theorem start_failure_is_not_retried (tr : list Event) (e : Event) :
  callStatus
    (cur (run props [ClickCall; Render; StartSettled Rejected; Render]
            (mount props))) = INACTIVE
  ∧ retryCount
      (cur (run props [ClickCall; Render; StartSettled Rejected; Render]
              (mount props))) = 0
  ∧ timers (run props [ClickCall; Render; StartSettled Rejected; Render]
              (mount props)) = ∅
  ∧ alerts
      (effects (run props [ClickCall; Render; StartSettled Rejected; Render]
                  (mount props))) =
      ["Failed to start conversation. Please check your connection and try again."]
  ∧ startCalls
      (effects (run props [ClickCall; Render; StartSettled Rejected; Render]
                  (mount props))) =
      [VapiStart (Props.voice props) (Props.style props)
                 (Props.subject props) (Props.topic props)]
  ∧ retryCount (cur (run props tr (mount props))) = 0
  ∧ map_Forall (λ _ tm, isSilence tm) (timers (run props tr (mount props)))
  ∧ (if userStart e
     then True
     else startCalls (effects (step props e (run props tr (mount props)))) =
          startCalls (effects (run props tr (mount props)))).
Proof.
  destruct (reachable tr) as [(Htm & Hc & Hs) _].
  repeat split; try done.
  destruct (userStart e) eqn:He; [done|].
  by apply step_startCalls.
Qed.

(** *** The silence timer *)



Lemma oneTimer_mount : oneTimer (mount props).
Proof.
  split; [done|]. intros t [x Hx]. cbn in Hx. by rewrite lookup_empty in Hx.
Qed.

Lemma oneTimer_step e w : oneTimer w → oneTimer (render (step props e w)).
Proof.
  intros [Hsnap Hone]. split; [done|].
  destruct w as [c s tms n m sp stp eff]. cbn in *. subst s.
  destruct e; handlers; branches; contra; try done.
  all: intros t' [x Hx]; cbn in *.
  all: repeat match goal with
       | H : <[_ := _]> _ !! _ = Some _ |- _ =>
           apply lookup_insert_Some in H as [[<- _]|[? H]]
       | H : delete _ _ !! _ = Some _ |- _ =>
           apply lookup_delete_Some in H as [? H]
       end; try done.
  all: match goal with
       | H : _ !! ?k = Some _ |- _ =>
           pose proof (Hone k (mk_is_Some _ _ H)); congruence
       end.
Qed.

Lemma oneTimer_run_rendered tr : oneTimer (run_rendered props tr (mount props)).
Proof.
  induction tr as [|e tr IH] using rev_ind; [apply oneTimer_mount|].
  rewrite run_rendered_snoc. by apply oneTimer_step.
Qed.














(** ** Further properties of the component *)

(** *** The phase *)

(** X1.  Every change of the phase has one cause.  The phase becomes ACTIVE only
    on the SDK's call-start, INACTIVE only when a start call rejects,
    FINISHED only on the SDK's call-end or when the user ends a call on a
    page that shows it active, and CONNECTING only when the user starts a
    call, from the button of a page that shows no call or by Ctrl+Enter on a
    page that shows INACTIVE, or when a retry timer fires. *)
Theorem phase_changes_have_one_cause (e : Event) (w : World)
    (Hchange : callStatus (cur (step props e w)) ≠ callStatus (cur w)) :
  match callStatus (cur (step props e w)) with
  | ACTIVE => e = SdkCallStart
  | INACTIVE => e = StartSettled Rejected ∧ startsPending w ≠ []
  | FINISHED =>
      e = SdkCallEnd
      ∨ (callStatus (snap w) = ACTIVE
         ∧ (e = ClickCall ∨ ∃ ctrlKey, e = KeyDown "Escape" ctrlKey))
  | CONNECTING =>
      (e = ClickCall
       ∧ (callStatus (snap w) = INACTIVE ∨ callStatus (snap w) = FINISHED))
      ∨ (e = KeyDown "Enter" true ∧ callStatus (snap w) = INACTIVE)
      ∨ (∃ t d c, e = TimerFire t
                  ∧ timers w !! t = Some {| delay := d; callback := RetryCb c |})
  end.
Proof.
  destruct e; handlers; branches; contra; try done.
  - subst. right. split; [done|]. right. by eexists.
  - left. split; [done|]. destruct (callStatus (snap w)); contra; auto.
  - right. right.
    match goal with
    | H : timers w !! _ = Some ?tm |- _ => destruct tm; cbn in *; subst
    end.
    by eexists _, _, _.
Qed.

(** *** The listening and speaking flags *)

(** X2.  Listening is turned on only by the start of user speech capture.  It is
    turned off only by the end of the capture, by the assistant starting to
    speak, by the end of the call, or by a silence timer that was armed on a
    page that listened while the assistant was silent. *)
Theorem listening_changes_have_one_cause (e : Event) (w : World)
    (Hchange : isListening (cur (step props e w)) ≠ isListening (cur w)) :
  if isListening (cur (step props e w))
  then e = SdkTranscriptStart
  else e = SdkTranscriptEnd ∨ e = SdkSpeechStart ∨ e = SdkCallEnd
       ∨ ∃ t d, e = TimerFire t
                ∧ timers w !! t =
                    Some {| delay := d; callback := SilenceCb true false |}.
Proof.
  destruct e; handlers; branches; contra; try done; try tauto.
  all: repeat right.
  all: match goal with
       | H : timers _ !! _ = Some ?tm |- _ => destruct tm; cbn in *; subst
       end.
  all: repeat match goal with
       | H : _ && _ = true |- _ => apply andb_true_iff in H as [? ?]
       | H : negb _ = true |- _ => apply negb_true_iff in H
       end; subst.
  all: by eexists _, _.
Qed.

(** X3.  The assistant is shown speaking only from the SDK's speech-start, and
    until its speech-end or the end of the call. *)
Theorem speaking_changes_have_one_cause (e : Event) (w : World)
    (Hchange : isSpeaking (cur (step props e w)) ≠ isSpeaking (cur w)) :
  if isSpeaking (cur (step props e w))
  then e = SdkSpeechStart
  else e = SdkSpeechEnd ∨ e = SdkCallEnd.
Proof.
  destruct e; handlers; branches; contra; try done; try tauto.
Qed.

(** *** Who calls the SDK *)

(** X4.  The component calls the SDK (start, stop, setMuted) only in answer to
    the user: on any trace of the mounted component, an event that is not a
    key or a click leaves the calls made on the SDK as they were.  No
    handler of an SDK event calls back into the SDK. *)
Theorem only_the_user_drives_the_sdk (tr : list Event) (e : Event)
    (He : isUserEvent e = false) :
  sdkCalls (effects (step props e (run props tr (mount props)))) =
  sdkCalls (effects (run props tr (mount props))).
Proof.
  destruct (reachable tr) as [(Htm & _ & _) _].
  revert Htm. generalize (run props tr (mount props)). intros w Htm.
  unfold sdkCalls.
  destruct e; handlers; branches; contra;
    rewrite ?omap_app, ?app_nil_r; cbn; rewrite ?app_nil_r; try done.
  all: match goal with
       | H : timers _ !! _ = Some ?tm, E : callback ?tm = RetryCb _ |- _ =>
           destruct (Htm _ _ H) as (? & ? & ?); congruence
       end.
Qed.

(** *** Keyboard shortcuts *)

(** X5.  A key changes the state only as one of the three shortcuts, each in its
    phase: Ctrl+Space on a page that shows an active call, Escape there too,
    Ctrl+Enter on a page that shows INACTIVE.  Every other key, and each
    shortcut in another phase, leaves the state as it is. *)
Theorem shortcuts_act_only_in_their_phase (key : string) (ctrlKey : bool)
    (w : World)
    (Hchange : cur (step props (KeyDown key ctrlKey) w) ≠ cur w) :
  (key = " " ∧ ctrlKey = true ∧ callStatus (snap w) = ACTIVE)
  ∨ (key = "Escape" ∧ callStatus (snap w) = ACTIVE)
  ∨ (key = "Enter" ∧ ctrlKey = true ∧ callStatus (snap w) = INACTIVE).
Proof.
  handlers. branches; contra; try done; tauto.
Qed.

(** X6.  On a page that shows a finished call the button starts a new call but
    the shortcut does not: Ctrl+Enter only cancels the key's default
    action, and no call is made on the SDK. *)
Theorem finished_page_restarts_by_button_only (w : World)
    (Hfinished : callStatus (snap w) = FINISHED) :
  callStatus (cur (step props ClickCall w)) = CONNECTING
  ∧ sdkCalls (effects (step props ClickCall w)) =
      sdkCalls (effects w)
      ++ [VapiStart (Props.voice props) (Props.style props)
                    (Props.subject props) (Props.topic props)]
  ∧ step props (KeyDown "Enter" true) w = emit PreventDefault w
  ∧ cur (step props (KeyDown "Enter" true) w) = cur w
  ∧ sdkCalls (effects (step props (KeyDown "Enter" true) w)) =
      sdkCalls (effects w).
Proof.
  unfold sdkCalls.
  repeat split; handlers; branches; contra; try done;
    by rewrite ?omap_app, ?app_nil_r.
Qed.

(** *** The microphone *)

(** X7.  On a page that shows an active call the mute button and Ctrl+Space read
    the SDK's mute state, set the SDK to the opposite with one [setMuted]
    call, and show that new state in the mute flag, whatever the flag was.
    A second toggle restores both. *)
Theorem mute_toggle_follows_the_sdk (w : World)
    (Hactive : callStatus (snap w) = ACTIVE) :
  vapiMuted (step props ClickMic w) = negb (vapiMuted w)
  ∧ isMuted (cur (step props ClickMic w)) = vapiMuted (step props ClickMic w)
  ∧ setMutedCalls (effects (step props ClickMic w)) =
      setMutedCalls (effects w) ++ [negb (vapiMuted w)]
  ∧ step props (KeyDown " " true) w = step props ClickMic (emit PreventDefault w)
  ∧ vapiMuted (step props ClickMic (step props ClickMic w)) = vapiMuted w
  ∧ isMuted (cur (step props ClickMic (step props ClickMic w))) = vapiMuted w.
Proof.
  unfold setMutedCalls.
  repeat split; handlers; branches; contra; try done;
    rewrite ?omap_app, ?app_nil_r, ?negb_involutive; done.
Qed.

Lemma step_muted_agree e w :
  isMuted (cur w) = vapiMuted w →
  isMuted (cur (step props e w)) = vapiMuted (step props e w).
Proof.
  intros Hw. destruct e; handlers; branches; contra; done.
Qed.

(** X8.  Once the mute flag agrees with the SDK's mute state it agrees after any
    trace, the SDK's state being what [setMuted] last set: the flag survives
    the end of a call and the start of the next, and no event changes it but
    the toggle on a page that shows an active call. *)
Theorem mute_flag_agrees_with_the_sdk (tr : list Event) (w : World)
    (Hagree : isMuted (cur w) = vapiMuted w) :
  isMuted (cur (run props tr w)) = vapiMuted (run props tr w)
  ∧ (∀ e w', isMuted (cur (step props e w')) = isMuted (cur w')
             ∨ (callStatus (snap w') = ACTIVE
                ∧ (e = ClickMic ∨ e = KeyDown " " true))).
Proof.
  split.
  - induction tr as [|e tr IH] using rev_ind; [done|].
    rewrite run_snoc. by apply step_muted_agree.
  - intros e w'. destruct e; handlers; branches; contra; try (by left).
    all: right; split; [done|]; by left.
Qed.

(** *** The audio level and the connection quality *)

(** X9.  The audio level is what the SDK last reported, and 0 again once the call
    ends; the connection quality is what the SDK last reported, whatever the
    string, and "good" again once a call starts.  No other event changes
    either. *)
Theorem level_and_quality_follow_the_sdk (e : Event) (w : World)
    (Hchange : audioLevel (cur (step props e w)) ≠ audioLevel (cur w)
               ∨ connectionQuality (cur (step props e w)) ≠
                 connectionQuality (cur w)) :
  match e with
  | SdkVolumeLevel volume =>
      audioLevel (cur (step props e w)) = volume
      ∧ connectionQuality (cur (step props e w)) = connectionQuality (cur w)
  | SdkCallEnd =>
      audioLevel (cur (step props e w)) = 0%Q
      ∧ connectionQuality (cur (step props e w)) = connectionQuality (cur w)
  | SdkConnectionQualityChange quality =>
      connectionQuality (cur (step props e w)) = quality
      ∧ audioLevel (cur (step props e w)) = audioLevel (cur w)
  | SdkCallStart =>
      connectionQuality (cur (step props e w)) = "good"
      ∧ audioLevel (cur (step props e w)) = audioLevel (cur w)
  | _ => False
  end.
Proof.
  destruct e; handlers; branches; contra; try done; tauto.
Qed.

(** *** The settings panel *)

(** X10.  The preferences change only through the three controls of the settings
    panel, and only on a page that shows no call: while a call is connecting
    or active they are frozen. *)
Theorem preferences_change_only_from_the_panel (e : Event) (w : World)
    (Hchange : userPreferences (conversationContext (cur (step props e w))) ≠
               userPreferences (conversationContext (cur w))) :
  isSettingsEvent e = true
  ∧ (callStatus (snap w) = INACTIVE ∨ callStatus (snap w) = FINISHED).
Proof.
  destruct e; handlers; branches; contra; try done.
  all: split; [done|].
  all: repeat match goal with
       | H : _ || _ = true |- _ => apply orb_true_iff in H as [H|H]
       | H : bool_decide _ = true |- _ => apply bool_decide_eq_true in H
       end; tauto.
Qed.

(** X11.  On a page that shows no call the three controls of the panel compose
    as independent fields: two different controls commute, of two uses of
    one control the later wins, and after the three of them the preferences
    are exactly the three values chosen.  They leave the rest of the state,
    the context window included, and the timers, the SDK and the log as they
    were. *)
Theorem settings_compose (w : World) (noise echo : bool)
    (quality quality' : VoiceQuality)
    (Hshown : callStatus (snap w) = INACTIVE ∨ callStatus (snap w) = FINISHED) :
  run props [ChangeNoiseReduction noise; ChangeVoiceQuality quality] w =
    run props [ChangeVoiceQuality quality; ChangeNoiseReduction noise] w
  ∧ run props [ChangeNoiseReduction noise; ChangeEchoCancellation echo] w =
    run props [ChangeEchoCancellation echo; ChangeNoiseReduction noise] w
  ∧ run props [ChangeEchoCancellation echo; ChangeVoiceQuality quality] w =
    run props [ChangeVoiceQuality quality; ChangeEchoCancellation echo] w
  ∧ run props [ChangeVoiceQuality quality'; ChangeVoiceQuality quality] w =
    run props [ChangeVoiceQuality quality] w
  ∧ run props [ChangeNoiseReduction (negb noise); ChangeNoiseReduction noise] w =
    run props [ChangeNoiseReduction noise] w
  ∧ run props [ChangeNoiseReduction noise; ChangeEchoCancellation echo;
               ChangeVoiceQuality quality] w =
    queue (λ s, with_conversationContext
                  (with_userPreferences
                     {| voiceQuality := quality; noiseReduction := noise;
                        echoCancellation := echo |}
                     (conversationContext s)) s) w.
Proof.
  assert (Hs : settingsShown w = true).
  { unfold settingsShown. destruct Hshown as [-> | ->]; done. }
  assert (Hq : ∀ f, settingsShown (queue f w) = true) by done.
  assert (Hq2 : ∀ f g, settingsShown (queue g (queue f w)) = true) by done.
  unfold run, step. cbn.
  unfold setConversationContext, onChangeNoiseReduction,
    onChangeEchoCancellation, updateVoiceQuality in *.
  rewrite ?Hs. unfold setConversationContext.
  rewrite ?Hq. rewrite ?Hq2. done.
Qed.

(** *** The transcript over any trace *)

Lemma step_messages e w :
  messages (cur (step props e w)) =
  match e with
  | SdkMessage message now =>
      if isFinal message then savedOf (message, now) :: messages (cur w)
      else messages (cur w)
  | ClickClear =>
      match messages (snap w) with
      | [] => messages (cur w)
      | _ :: _ => []
      end
  | _ => messages (cur w)
  end.
Proof.
  destruct e; try apply onMessage_messages;
    handlers; branches; contra; done.
Qed.

Lemma step_context_other e w :
  (if e is SdkMessage _ _ then False else True) →
  previousMessages (conversationContext (cur (step props e w))) =
    previousMessages (conversationContext (cur w))
  ∧ lastUserInput (cur (step props e w)) = lastUserInput (cur w).
Proof.
  intros He. destruct e; try done; handlers; branches; contra; done.
Qed.

Lemma step_subject_topic e w :
  subject (conversationContext (cur (step props e w))) =
    subject (conversationContext (cur w))
  ∧ topic (conversationContext (cur (step props e w))) =
    topic (conversationContext (cur w)).
Proof. destruct e; handlers; branches; contra; done. Qed.

Lemma messageEvents_snoc tr e :
  messageEvents (tr ++ [e]) =
  messageEvents tr
  ++ (if e is SdkMessage message now then [(message, now)] else []).
Proof.
  unfold messageEvents. rewrite omap_app. f_equal. by destruct e.
Qed.

(** X12.  The context window and the in-flight utterance depend on the message
    events alone.  On every trace of the mounted component the window holds
    the ten most recent final transcripts of the whole trace, newest first:
    neither the clear button nor the end of a call nor a new call empties
    it; the in-flight utterance is what the message events alone would have
    left; and the subject and topic of the context stay those of the
    props. *)
Theorem context_follows_the_message_events (tr : list Event) :
  previousMessages (conversationContext (cur (run props tr (mount props)))) =
    take 10 (reverse (finals (messageEvents tr)))
  ∧ lastUserInput (cur (run props tr (mount props))) =
    lastUserInput (cur (run props (deliver (messageEvents tr)) (mount props)))
  ∧ subject (conversationContext (cur (run props tr (mount props)))) =
    Props.subject props
  ∧ topic (conversationContext (cur (run props tr (mount props)))) =
    Props.topic props.
Proof.
  induction tr as [|e tr (IH1 & IH2 & IH3 & IH4)] using rev_ind; [done|].
  rewrite run_snoc, messageEvents_snoc.
  destruct (step_subject_topic e (run props tr (mount props))) as [-> ->].
  split; [|split; [|done]].
  - destruct e; lazy beta iota;
      try (rewrite app_nil_r;
           match goal with
           | |- context [step props ?e ?w] =>
               by rewrite (proj1 (step_context_other e w I))
           end).
    rewrite finals_snoc, reverse_app, onMessage_previousMessages, IH1.
    cbn [fst snd]. destruct (isFinal message); [|done].
    change (reverse [savedOf (message, now)]) with [savedOf (message, now)].
    cbn [app]. apply take_cons_take.
  - destruct e; lazy beta iota;
      try (rewrite app_nil_r;
           match goal with
           | |- context [step props ?e ?w] =>
               by rewrite (proj2 (step_context_other e w I))
           end).
    rewrite deliver_snoc, run_snoc. cbn [fst snd].
    rewrite !onMessage_lastUserInput, IH2. done.
Qed.

Lemma messages_without_clear tr :
  forallb (λ e, negb (isClear e)) tr = true →
  messages (cur (run props tr (mount props))) =
  reverse (finals (messageEvents tr)).
Proof.
  induction tr as [|e tr IH] using rev_ind; [done|].
  rewrite forallb_app, andb_true_iff. intros [Htr He].
  rewrite run_snoc, messageEvents_snoc, step_messages, (IH Htr).
  destruct e; lazy beta iota; rewrite ?app_nil_r; try done.
  rewrite finals_snoc, reverse_app. cbn [fst snd].
  by destruct (isFinal message).
Qed.

(** X13.  The transcript always shows the most recent final transcripts, newest
    first and without a gap, and only the clear button shortens it.  On every
    trace of the mounted component the message list is a front part of the
    newest-first list of all final transcripts received, and the whole of it
    when the trace has no click on the clear button.  An event changes the
    list in two ways only: a final transcript puts its message in front, and
    the clear button of a page that shows messages empties it. *)
Theorem transcript_is_the_newest_finals (tr : list Event) (e : Event) :
  (∃ k, messages (cur (run props tr (mount props))) =
        take k (reverse (finals (messageEvents tr))))
  ∧ (if forallb (λ e', negb (isClear e')) tr
     then messages (cur (run props tr (mount props))) =
          reverse (finals (messageEvents tr))
     else True)
  ∧ (∀ w, messages (cur (step props e w)) =
          match e with
          | SdkMessage message now =>
              if isFinal message
              then {| role := Message.role message;
                      content := Message.transcript message;
                      timestamp := now |} :: messages (cur w)
              else messages (cur w)
          | ClickClear =>
              match messages (snap w) with
              | [] => messages (cur w)
              | _ :: _ => []
              end
          | _ => messages (cur w)
          end).
Proof.
  split; [|split].
  - clear e. induction tr as [|e tr [k IH]] using rev_ind; [by exists 0%nat|].
    rewrite run_snoc, messageEvents_snoc, step_messages.
    destruct e; lazy beta iota; rewrite ?app_nil_r; try (by exists k).
    + rewrite finals_snoc, reverse_app. cbn [fst snd].
      destruct (isFinal message).
      * exists (S k). by rewrite IH.
      * by exists k.
    + destruct (messages (snap (run props tr (mount props)))).
      * by exists k.
      * by exists 0%nat.
  - destruct (forallb (λ e', negb (isClear e')) tr) eqn:E; [|done].
    by apply messages_without_clear.
  - intros w. by rewrite step_messages.
Qed.

(** *** Cancelling the silence timer *)

Lemma oneTimer_clearCaptured w : oneTimer w → timers (clearCaptured w) = ∅.
Proof.
  intros [Hs Hone]. unfold clearCaptured. rewrite Hs.
  destruct (voiceActivityTimeout (cur w)) as [t|] eqn:Hv; cbn;
    apply map_eq; intros t'; rewrite lookup_empty.
  - destruct (delete t (timers w) !! t') eqn:E; [|done].
    apply lookup_delete_Some in E as [Hne E].
    specialize (Hone t' (mk_is_Some _ _ E)). congruence.
  - destruct (timers w !! t') eqn:E; [|done].
    specialize (Hone t' (mk_is_Some _ _ E)). congruence.
Qed.

(** X14.  When the handlers are those of the current state and at most the timer
    of the stored handle is pending, the assistant starting to speak and the
    end of the call each leave no timer pending and the component not
    listening: no silence timeout fires afterwards. *)
Theorem speech_and_call_end_cancel_the_timer (w : World) (e : Event)
    (Hone : oneTimer w)
    (He : e = SdkSpeechStart ∨ e = SdkCallEnd) :
  timers (step props e w) = ∅
  ∧ isListening (cur (step props e w)) = false
  ∧ ∀ t, step props (TimerFire t) (step props e w) = step props e w.
Proof.
  assert (Ht : timers (step props e w) = ∅).
  { rewrite <- (oneTimer_clearCaptured w Hone).
    destruct He as [-> | ->]; handlers; by branches. }
  split; [done|]. split.
  - destruct He as [-> | ->]; handlers; by branches.
  - intros t. unfold step at 1. by rewrite Ht, lookup_empty.
Qed.

(** X15.  The set of pending timers changes only when the start of speech capture
    or a partial transcript arms the silence timer, when the assistant
    starts to speak or the call ends, which cancel it, and when a timer
    fires.  A final transcript in particular neither arms nor cancels the
    timer. *)
Theorem pending_timers_change_by_four_events (e : Event) (w : World)
    (Hchange : timers (step props e w) ≠ timers w) :
  arms e = true ∨ e = SdkSpeechStart ∨ e = SdkCallEnd ∨ ∃ t, e = TimerFire t.
Proof.
  unfold arms, isPartial.
  destruct e; handlers; branches; contra; try done; try tauto;
    try (right; right; right; by eexists).
  all: left; apply andb_true_iff; by rewrite !bool_decide_eq_true.
Qed.

(** *** [retryConnection] on its own *)

Lemma render_fresh w : snap w = cur w → render w = w.
Proof. destruct w. cbn. by intros ->. Qed.

Lemma retryTimes_fresh n w :
  snap w = cur w → snap (retryTimes n w) = cur (retryTimes n w).
Proof. by destruct n. Qed.

Lemma retryTimes_count n w :
  snap w = cur w → retryCount (cur w) = 0 →
  retryCount (cur (retryTimes n w)) = Z.min (Z.of_nat n) 3.
Proof.
  intros Hf Hz. induction n as [|n IH]; [by rewrite Z.min_l by lia|].
  cbn [retryTimes]. rewrite render_cur. unfold retryConnection.
  rewrite (retryTimes_fresh n w Hf).
  case_decide; cbn; lia.
Qed.

(** X16.  [retryConnection] called again and again from a page without retries,
    the page re-rendering after each call: the retry counter after [n] calls
    is the smaller of [n] and 3.  Each of the first three calls schedules a
    call after 1000 ms times the number of earlier retries, which is 0, 1000
    and 2000 ms; a later call changes nothing.  [retryConnection] itself
    changes neither the phase nor the calls made on the SDK. *)
Theorem retry_counts_to_three (n : nat) (w : World)
    (Hfresh : snap w = cur w)
    (Hzero : retryCount (cur w) = 0) :
  retryCount (cur (retryTimes n w)) = Z.min (Z.of_nat n) 3
  ∧ (if decide (n < 3)%nat
     then timers (retryTimes (S n) w) !! nextTimer (retryTimes n w) =
            Some {| delay := 1000 * Z.of_nat n;
                    callback := RetryCb (Z.of_nat n) |}
     else retryTimes (S n) w = retryTimes n w)
  ∧ callStatus (cur (retryTimes n w)) = callStatus (cur w)
  ∧ sdkCalls (effects (retryTimes n w)) = sdkCalls (effects w).
Proof.
  pose proof (retryTimes_count n w Hfresh Hzero) as Hc.
  pose proof (retryTimes_fresh n w Hfresh) as Hf.
  split; [done|]. split; [|split].
  - cbn [retryTimes]. unfold retryConnection. rewrite Hf, Hc.
    case_decide.
    + rewrite Z.min_l by lia. case_decide; [|lia]. cbn.
      by rewrite lookup_insert_eq.
    + rewrite Z.min_r by lia. case_decide; [lia|]. by apply render_fresh.
  - clear Hc Hf. induction n as [|n IH]; [done|].
    cbn [retryTimes]. rewrite render_cur, <- IH. unfold retryConnection.
    by case_decide.
  - clear Hc Hf. induction n as [|n IH]; [done|].
    cbn [retryTimes]. rewrite <- IH. unfold retryConnection, sdkCalls.
    case_decide; cbn; [|done].
    by rewrite omap_app, app_nil_r.
Qed.

(** *** The call button *)

(** X17.  On every trace of the mounted component the call button reads "End
    Session", "Connecting..." or "Start Session" with the phase: the retry
    progress "(n/3)" is never part of it. *)
Theorem call_button_never_shows_retry_progress (tr : list Event) :
  callButtonLabel (cur (run props tr (mount props))) =
  match callStatus (cur (run props tr (mount props))) with
  | ACTIVE => "End Session"
  | CONNECTING => "Connecting..."
  | _ => "Start Session"
  end.
Proof.
  destruct (reachable tr) as [(_ & Hc & _) _].
  unfold callButtonLabel. rewrite Hc.
  destruct (callStatus (cur (run props tr (mount props)))); done.
Qed.

(** *** The assistant's name in the transcript *)

Lemma firstWord_no_space s :
  Forall (λ c, c ≠ " "%char) (chars (firstWord s)).
Proof.
  induction s as [|c s IH]; cbn; [constructor|].
  destruct (Ascii.eqb_spec c " "); cbn; [constructor|].
  by constructor.
Qed.

Lemma firstWord_plain s :
  Forall (λ c, c ≠ " "%char) (chars s) → firstWord s = s.
Proof.
  induction s as [|c s IH]; cbn; [done|].
  intros [Hc Hs]%Forall_cons. destruct (Ascii.eqb_spec c " "); [done|].
  by rewrite IH.
Qed.

Lemma firstWord_append first rest :
  Forall (λ c, c ≠ " "%char) (chars first) →
  firstWord (String.append first (String " " rest)) = first.
Proof.
  induction first as [|c s IH]; [done|].
  intros [Hc Hs]%Forall_cons.
  change (String.append (String c s) (String " " rest))
    with (String c (String.append s (String " " rest))).
  cbn. destruct (Ascii.eqb_spec c " "); [done|].
  f_equal. by apply IH.
Qed.

Lemma removeDotsCommas_chars s :
  chars (removeDotsCommas s) =
  filter (λ c, c ≠ "."%char ∧ c ≠ ","%char) (chars s).
Proof.
  induction s as [|c s IH]; [done|].
  cbn [removeDotsCommas chars]. rewrite filter_cons.
  destruct (Ascii.eqb_spec c "."), (Ascii.eqb_spec c ",");
    cbn [orb chars]; case_decide; try tauto; by rewrite IH.
Qed.

Lemma chars_inj s1 s2 : chars s1 = chars s2 → s1 = s2.
Proof.
  revert s2. induction s1 as [|c s1 IH]; intros [|c' s2]; cbn; try done.
  intros [= -> H]. by rewrite (IH _ H).
Qed.

Lemma removeDotsCommas_plain s :
  Forall (λ c, c ≠ "."%char ∧ c ≠ ","%char) (chars s) →
  removeDotsCommas s = s.
Proof.
  intros H. apply chars_inj. rewrite removeDotsCommas_chars.
  induction (chars s) as [|c l IH]; [done|].
  apply Forall_cons in H as [Hc Hl].
  rewrite filter_cons. case_decide; [|done]. by rewrite IH.
Qed.

(** X18.  The name shown on the assistant's rows contains no space, full stop or
    comma; it is made of characters of the name, in their order; and taking
    the label of a label changes nothing. *)
Theorem assistant_label_is_clean (name : string) :
  Forall (λ c, c ≠ " "%char ∧ c ≠ "."%char ∧ c ≠ ","%char)
         (chars (assistantLabel name))
  ∧ sublist (chars (assistantLabel name)) (chars name)
  ∧ assistantLabel (assistantLabel name) = assistantLabel name.
Proof.
  assert (Hclean : Forall (λ c, c ≠ " "%char ∧ c ≠ "."%char ∧ c ≠ ","%char)
                          (chars (assistantLabel name))).
  { unfold assistantLabel. rewrite removeDotsCommas_chars.
    apply Forall_forall. intros c [Hc Hin]%list_elem_of_filter.
    split; [|done].
    by apply (proj1 (Forall_forall _ _) (firstWord_no_space name)). }
  split; [done|]. split.
  - unfold assistantLabel. rewrite removeDotsCommas_chars.
    etrans; [apply sublist_filter|].
    clear Hclean. induction name as [|c s IH]; cbn; [done|].
    destruct (Ascii.eqb_spec c " "); cbn.
    + apply sublist_nil_l.
    + by apply sublist_skip.
  - unfold assistantLabel at 1.
    rewrite firstWord_plain, removeDotsCommas_plain; [done|..];
      eapply Forall_impl; try exact Hclean; cbn; tauto.
Qed.

(** X19.  Only the first word of the name is shown: of a name whose first word is
    followed by a space, the label is that word without its full stops and
    commas, whatever follows the space; a name without spaces is one
    word. *)
Theorem assistant_label_is_the_first_word (first rest : string)
    (Hword : Forall (λ c, c ≠ " "%char) (chars first)) :
  assistantLabel (String.append first (String " " rest)) =
    removeDotsCommas first
  ∧ assistantLabel first = removeDotsCommas first.
Proof.
  unfold assistantLabel.
  by rewrite firstWord_append, firstWord_plain.
Qed.

(** *** Alerts *)

(** X20.  The component raises one alert only.  On every trace of the mounted
    component each alert shown is the start-failure alert of [handleCall],
    and there are at most as many as start calls were rejected; the alert
    "Connection failed after 3 attempts" of the retry timer is never
    shown. *)
Theorem every_alert_is_the_start_failure (tr : list Event) :
  Forall (λ msg, msg = "Failed to start conversation. Please check your connection and try again.")
         (alerts (effects (run props tr (mount props))))
  ∧ (length (alerts (effects (run props tr (mount props))))
     ≤ length (filter (λ e, isStartRejected e = true) tr))%nat
  ∧ "Connection failed after 3 attempts. Please check your internet connection and try again."
      ∉ alerts (effects (run props tr (mount props))).
Proof.
  assert (H : Forall (λ msg, msg = "Failed to start conversation. Please check your connection and try again.")
                (alerts (effects (run props tr (mount props))))
              ∧ (length (alerts (effects (run props tr (mount props))))
                 ≤ length (filter (λ e, isStartRejected e = true) tr))%nat).
  { induction tr as [|e tr [IH1 IH2]] using rev_ind; [by split|].
    rewrite run_snoc, step_alerts, filter_app, !length_app.
    rewrite filter_cons, filter_nil.
    split.
    - apply Forall_app. split; [done|].
      destruct e as [| | | | | | | | | | | | | | | | | [] | |];
        try constructor;
        destruct (startsPending (run props tr (mount props)));
        by repeat constructor.
    - destruct e as [| | | | | | | | | | | | | | | | | [] | |];
        cbn [isStartRejected]; case_decide; try done;
        try destruct (startsPending (run props tr (mount props)));
        cbn [length]; lia. }
  destruct H as [H1 H2]. split; [done|]. split; [done|].
  intros Hin. by apply (proj1 (Forall_forall _ _) H1) in Hin.
Qed.
End Properties.

(** ** Scenarios on the demo page *)

(** The scenario of the specification: start, call-start, transcript-start,
    the partial transcript "hel", then the final transcript "hello" of the
    user. *)
Example hello_scenario :
  let w := run demo [ClickCall; Render; SdkCallStart; Render;
                     SdkTranscriptStart; Render;
                     SdkMessage (partialTranscript "hel") "2025-01-01T10:00:00.000Z";
                     Render;
                     SdkMessage (finalTranscript "user" "hello")
                                "2025-01-01T10:00:01.000Z";
                     Render] (mount demo) in
  callStatus (cur w) = ACTIVE
  ∧ messages (cur w) = [{| role := "user"; content := "hello";
                           timestamp := "2025-01-01T10:00:01.000Z" |}]
  ∧ lastUserInput (cur w) = "".
Proof. vm_compute. done. Qed.

(** [retryConnection] called three times, the page re-rendering in between,
    schedules calls after 0, 1000 and 2000 ms; a fourth call does nothing. *)
Example retryConnection_backoff :
  let w3 := render (retryConnection (render (retryConnection
              (render (retryConnection (mount demo)))))) in
  timers w3 =
    <[3%positive := {| delay := 2000; callback := RetryCb 2 |}]>
      (<[2%positive := {| delay := 1000; callback := RetryCb 1 |}]>
         {[1%positive := {| delay := 0; callback := RetryCb 0 |}]})
  ∧ retryCount (cur w3) = 3
  ∧ retryConnection w3 = w3.
Proof. vm_compute. done. Qed.

(** The user starts a session three times and the start call rejects three
    times: three alerts, no retry, and the component still accepts a fourth
    start. *)
Example three_failures :
  let attempt := [ClickCall; Render; StartSettled Rejected; Render] in
  let w := run demo (attempt ++ attempt ++ attempt) (mount demo) in
  callStatus (cur w) = INACTIVE
  ∧ retryCount (cur w) = 0
  ∧ timers w = ∅
  ∧ length (alerts (effects w)) = 3%nat
  ∧ length (startCalls (effects w)) = 3%nat
  ∧ callStatus (cur (step demo ClickCall w)) = CONNECTING
  ∧ length (startCalls (effects (step demo ClickCall w))) = 4%nat.
Proof. vm_compute. done. Qed.

Lemma start_connects_until_the_sdk_answers_witness :
  (callStatus (snap (mount demo)) = INACTIVE
   ∨ callStatus (snap (mount demo)) = FINISHED)
  ∧ callStatus (cur (run demo [ClickCall; Render] (mount demo))) = CONNECTING
  ∧ movesConnecting SdkTranscriptStart = false
  ∧ callStatus (cur (step demo ClickCall (mount demo))) = CONNECTING
  ∧ callStatus
      (cur (step demo SdkTranscriptStart
              (run demo [ClickCall; Render] (mount demo)))) = CONNECTING
  ∧ callStatus
      (cur (step demo (StartSettled Rejected)
              (run demo [ClickCall; Render] (mount demo)))) = INACTIVE.
Proof.
  assert (H1 : callStatus (snap (mount demo)) = INACTIVE
               ∨ callStatus (snap (mount demo)) = FINISHED)
    by (left; reflexivity).
  assert (H2 : callStatus (cur (run demo [ClickCall; Render] (mount demo)))
               = CONNECTING) by reflexivity.
  assert (H3 : movesConnecting SdkTranscriptStart = false) by reflexivity.
  destruct (start_connects_until_the_sdk_answers demo (mount demo)
              [ClickCall; Render] SdkTranscriptStart H1 H2 H3)
    as (Ha & _ & _ & Hb & Hc).
  split; [exact H1|]. split; [exact H2|]. split; [exact H3|].
  split; [exact Ha|]. split; [exact Hb|].
  apply (Hc (run demo [ClickCall; Render] (mount demo))).
  vm_compute. discriminate.
Defined.

Lemma disconnect_finishes_even_on_failure_witness :
  callStatus (snap activeWorld) = ACTIVE
  ∧ callStatus
      (cur (step demo (StopSettled Rejected) (step demo ClickCall activeWorld))) =
    FINISHED
  ∧ effects (step demo (StopSettled Rejected) (step demo ClickCall activeWorld)) =
    effects activeWorld ++ [VapiStop; ConsoleError "Failed to disconnect:"].
Proof.
  assert (H : callStatus (snap activeWorld) = ACTIVE) by reflexivity.
  destruct (disconnect_finishes_even_on_failure demo activeWorld false H)
    as (_ & _ & _ & _ & Ha & Hb & _).
  split; [exact H|]. split; [exact Ha | exact Hb].
Defined.

Lemma mute_is_noop_unless_active_witness :
  callStatus (snap (mount demo)) ≠ ACTIVE
  ∧ step demo ClickMic (mount demo) = mount demo
  ∧ cur (step demo (KeyDown " " true) (mount demo)) = cur (mount demo)
  ∧ setMutedCalls (effects (step demo (KeyDown " " true) (mount demo))) =
    setMutedCalls (effects (mount demo)).
Proof.
  assert (H : callStatus (snap (mount demo)) ≠ ACTIVE)
    by (vm_compute; discriminate).
  destruct (mute_is_noop_unless_active demo (mount demo) H)
    as (Ha & Hb & _ & _ & Hc).
  split; [exact H|]. split; [exact Ha|]. split; [exact Hb | exact Hc].
Defined.

Lemma clear_empties_only_the_message_list_witness :
  messages (snap talkedWorld) ≠ []
  ∧ messages (cur (step demo ClickClear talkedWorld)) = []
  ∧ previousMessages (conversationContext (cur (step demo ClickClear talkedWorld))) =
    [{| role := "user"; content := "hello";
        timestamp := "2025-01-01T10:00:00.000Z" |}].
Proof.
  assert (H : messages (snap talkedWorld) ≠ [])
    by (vm_compute; discriminate).
  destruct (clear_empties_only_the_message_list demo talkedWorld H)
    as (Ha & _ & Hb & _).
  split; [exact H|]. split; [exact Ha|].
  rewrite Hb. reflexivity.
Defined.



(** ** Scenarios for the further properties *)

Lemma phase_changes_have_one_cause_witness :
  callStatus (cur (step demo ClickCall (mount demo))) ≠
    callStatus (cur (mount demo))
  ∧ ((ClickCall = ClickCall
      ∧ (callStatus (snap (mount demo)) = INACTIVE
         ∨ callStatus (snap (mount demo)) = FINISHED))
     ∨ (ClickCall = KeyDown "Enter" true
        ∧ callStatus (snap (mount demo)) = INACTIVE)
     ∨ (∃ t d c, ClickCall = TimerFire t
                 ∧ timers (mount demo) !! t =
                     Some {| delay := d; callback := RetryCb c |})).
Proof.
  assert (H : callStatus (cur (step demo ClickCall (mount demo))) ≠
              callStatus (cur (mount demo)))
    by (vm_compute; discriminate).
  split; [exact H|].
  exact (phase_changes_have_one_cause demo ClickCall (mount demo) H).
Defined.

Lemma listening_changes_have_one_cause_witness :
  isListening (cur (step demo (TimerFire 2) listeningWorld)) ≠
    isListening (cur listeningWorld)
  ∧ (TimerFire 2 = SdkTranscriptEnd ∨ TimerFire 2 = SdkSpeechStart
     ∨ TimerFire 2 = SdkCallEnd
     ∨ ∃ t d, TimerFire 2 = TimerFire t
              ∧ timers listeningWorld !! t =
                  Some {| delay := d; callback := SilenceCb true false |}).
Proof.
  assert (H : isListening (cur (step demo (TimerFire 2) listeningWorld)) ≠
              isListening (cur listeningWorld))
    by (vm_compute; discriminate).
  split; [exact H|].
  exact (listening_changes_have_one_cause demo (TimerFire 2) listeningWorld H).
Defined.

Lemma speaking_changes_have_one_cause_witness :
  isSpeaking (cur (step demo SdkSpeechStart activeWorld)) ≠
    isSpeaking (cur activeWorld)
  ∧ SdkSpeechStart = SdkSpeechStart.
Proof.
  assert (H : isSpeaking (cur (step demo SdkSpeechStart activeWorld)) ≠
              isSpeaking (cur activeWorld))
    by (vm_compute; discriminate).
  split; [exact H|].
  exact (speaking_changes_have_one_cause demo SdkSpeechStart activeWorld H).
Defined.

Lemma only_the_user_drives_the_sdk_witness :
  isUserEvent SdkCallEnd = false
  ∧ sdkCalls (effects (step demo SdkCallEnd
                         (run demo [ClickCall; Render; SdkCallStart; Render]
                            (mount demo)))) =
    sdkCalls (effects (run demo [ClickCall; Render; SdkCallStart; Render]
                         (mount demo))).
Proof.
  assert (H : isUserEvent SdkCallEnd = false) by reflexivity.
  split; [exact H|].
  exact (only_the_user_drives_the_sdk demo
           [ClickCall; Render; SdkCallStart; Render] SdkCallEnd H).
Defined.

Lemma shortcuts_act_only_in_their_phase_witness :
  cur (step demo (KeyDown "Escape" false) activeWorld) ≠ cur activeWorld
  ∧ (("Escape" = " " ∧ false = true ∧ callStatus (snap activeWorld) = ACTIVE)
     ∨ ("Escape" = "Escape" ∧ callStatus (snap activeWorld) = ACTIVE)
     ∨ ("Escape" = "Enter" ∧ false = true
        ∧ callStatus (snap activeWorld) = INACTIVE)).
Proof.
  assert (H : cur (step demo (KeyDown "Escape" false) activeWorld) ≠
              cur activeWorld)
    by (vm_compute; discriminate).
  split; [exact H|].
  exact (shortcuts_act_only_in_their_phase demo "Escape" false activeWorld H).
Defined.

Lemma finished_page_restarts_by_button_only_witness :
  callStatus (snap finishedWorld) = FINISHED
  ∧ callStatus (cur (step demo ClickCall finishedWorld)) = CONNECTING
  ∧ cur (step demo (KeyDown "Enter" true) finishedWorld) = cur finishedWorld.
Proof.
  assert (H : callStatus (snap finishedWorld) = FINISHED) by reflexivity.
  destruct (finished_page_restarts_by_button_only demo finishedWorld H)
    as (Ha & _ & _ & Hb & _).
  split; [exact H|]. split; [exact Ha | exact Hb].
Defined.

Lemma mute_toggle_follows_the_sdk_witness :
  callStatus (snap activeWorld) = ACTIVE
  ∧ vapiMuted (step demo ClickMic activeWorld) = negb (vapiMuted activeWorld)
  ∧ isMuted (cur (step demo ClickMic activeWorld)) =
    vapiMuted (step demo ClickMic activeWorld).
Proof.
  assert (H : callStatus (snap activeWorld) = ACTIVE) by reflexivity.
  destruct (mute_toggle_follows_the_sdk demo activeWorld H)
    as (Ha & Hb & _).
  split; [exact H|]. split; [exact Ha | exact Hb].
Defined.

Lemma level_and_quality_follow_the_sdk_witness :
  (audioLevel (cur (step demo (SdkConnectionQualityChange "poor") activeWorld)) ≠
     audioLevel (cur activeWorld)
   ∨ connectionQuality
       (cur (step demo (SdkConnectionQualityChange "poor") activeWorld)) ≠
     connectionQuality (cur activeWorld))
  ∧ connectionQuality
      (cur (step demo (SdkConnectionQualityChange "poor") activeWorld)) = "poor".
Proof.
  assert (H : audioLevel
                (cur (step demo (SdkConnectionQualityChange "poor") activeWorld)) ≠
              audioLevel (cur activeWorld)
              ∨ connectionQuality
                  (cur (step demo (SdkConnectionQualityChange "poor")
                          activeWorld)) ≠
                connectionQuality (cur activeWorld))
    by (right; vm_compute; discriminate).
  split; [exact H|].
  exact (proj1 (level_and_quality_follow_the_sdk demo
                  (SdkConnectionQualityChange "poor") activeWorld H)).
Defined.

Lemma preferences_change_only_from_the_panel_witness :
  userPreferences
    (conversationContext (cur (step demo (ChangeVoiceQuality HIGH) finishedWorld))) ≠
  userPreferences (conversationContext (cur finishedWorld))
  ∧ isSettingsEvent (ChangeVoiceQuality HIGH) = true
  ∧ (callStatus (snap finishedWorld) = INACTIVE
     ∨ callStatus (snap finishedWorld) = FINISHED).
Proof.
  assert (H : userPreferences
                (conversationContext
                   (cur (step demo (ChangeVoiceQuality HIGH) finishedWorld))) ≠
              userPreferences (conversationContext (cur finishedWorld)))
    by (vm_compute; discriminate).
  split; [exact H|].
  exact (preferences_change_only_from_the_panel demo (ChangeVoiceQuality HIGH)
           finishedWorld H).
Defined.

Lemma settings_compose_witness :
  (callStatus (snap (mount demo)) = INACTIVE
   ∨ callStatus (snap (mount demo)) = FINISHED)
  ∧ run demo [ChangeNoiseReduction false; ChangeVoiceQuality LOW] (mount demo) =
    run demo [ChangeVoiceQuality LOW; ChangeNoiseReduction false] (mount demo).
Proof.
  assert (H : callStatus (snap (mount demo)) = INACTIVE
              ∨ callStatus (snap (mount demo)) = FINISHED)
    by (left; reflexivity).
  destruct (settings_compose demo (mount demo) false true LOW HIGH H)
    as (Ha & _).
  split; [exact H | exact Ha].
Defined.

Lemma mute_flag_agrees_with_the_sdk_witness :
  isMuted (cur activeWorld) = vapiMuted activeWorld
  ∧ isMuted (cur (run demo [ClickMic; SdkCallEnd; Render; ClickCall] activeWorld)) =
    vapiMuted (run demo [ClickMic; SdkCallEnd; Render; ClickCall] activeWorld).
Proof.
  assert (H : isMuted (cur activeWorld) = vapiMuted activeWorld)
    by reflexivity.
  split; [exact H|].
  exact (proj1 (mute_flag_agrees_with_the_sdk demo
                  [ClickMic; SdkCallEnd; Render; ClickCall] activeWorld H)).
Defined.

Lemma pending_timers_change_by_four_events_witness :
  timers (step demo SdkTranscriptStart activeWorld) ≠ timers activeWorld
  ∧ (arms SdkTranscriptStart = true ∨ SdkTranscriptStart = SdkSpeechStart
     ∨ SdkTranscriptStart = SdkCallEnd
     ∨ ∃ t, SdkTranscriptStart = TimerFire t).
Proof.
  assert (H : timers (step demo SdkTranscriptStart activeWorld) ≠
              timers activeWorld).
  { intros E.
    assert (E' : timers (step demo SdkTranscriptStart activeWorld) !! 1%positive
                 = timers activeWorld !! 1%positive) by (by rewrite E).
    vm_compute in E'. discriminate. }
  split; [exact H|].
  exact (pending_timers_change_by_four_events demo SdkTranscriptStart
           activeWorld H).
Defined.

Lemma speech_and_call_end_cancel_the_timer_witness :
  oneTimer listeningWorld
  ∧ (SdkCallEnd = SdkSpeechStart ∨ SdkCallEnd = SdkCallEnd)
  ∧ timers listeningWorld =
      {[2%positive := {| delay := 3000; callback := SilenceCb true false |}]}
  ∧ timers (step demo SdkCallEnd listeningWorld) = ∅.
Proof.
  assert (H1 : oneTimer listeningWorld).
  { split; [reflexivity|]. intros t [x Hx].
    change (timers listeningWorld)
      with ({[2%positive :=
                {| delay := 3000; callback := SilenceCb true false |}]}
            : gmap positive Timer) in Hx.
    apply lookup_singleton_Some in Hx as [<- _]. reflexivity. }
  assert (H2 : SdkCallEnd = SdkSpeechStart ∨ SdkCallEnd = SdkCallEnd)
    by (right; reflexivity).
  destruct (speech_and_call_end_cancel_the_timer demo listeningWorld SdkCallEnd
              H1 H2) as (Ha & _).
  split; [exact H1|]. split; [exact H2|]. split; [reflexivity | exact Ha].
Defined.

Lemma retry_counts_to_three_witness :
  snap (mount demo) = cur (mount demo)
  ∧ retryCount (cur (mount demo)) = 0
  ∧ retryCount (cur (retryTimes 5 (mount demo))) = 3
  ∧ retryTimes 6 (mount demo) = retryTimes 5 (mount demo).
Proof.
  assert (H1 : snap (mount demo) = cur (mount demo)) by reflexivity.
  assert (H2 : retryCount (cur (mount demo)) = 0) by reflexivity.
  destruct (retry_counts_to_three 5 (mount demo) H1 H2)
    as (Ha & Hb & _).
  split; [exact H1|]. split; [exact H2|]. split; [exact Ha | exact Hb].
Defined.

Lemma assistant_label_is_the_first_word_witness :
  Forall (λ c, c ≠ " "%char) (chars "Dr.Neura,")
  ∧ assistantLabel "Dr.Neura, the Explorer" = "DrNeura".
Proof.
  assert (H : Forall (λ c, c ≠ " "%char) (chars "Dr.Neura,"))
    by (repeat constructor; discriminate).
  split; [exact H|].
  exact (proj1 (assistant_label_is_the_first_word "Dr.Neura," "the Explorer" H)).
Defined.
